(** * Seven24 churn analytics: the scoring pipeline of [streamlit_app.py]

    A shallow embedding of the data-cleaning, feature-derivation, scoring and
    rule-table functions of [src/streamlit_app.py], and the properties of the
    specification settled against it.

    Conventions of the embedding.
    - A Python [float] or [int] is a rational number ([Q]); pandas' missing
      marker [NaN] is [None] in a numeric column ([num]).  Comparisons with
      [NaN] are false, arithmetic with [NaN] gives [NaN].  The risk tiers are
      also stated on binary64 numbers ([get_risk_level_binary64]).
    - A cell of an object column, or a value of a row dictionary, is a
      [value]: a string, a number or [NaN].
    - A [str] is a [string] whose characters are code points below 256.
    - A data frame is the list of its rows, each with the columns of
      [REQUIRED_COLUMNS] (so the tests [c in df.columns] of the cleaning
      steps hold); a column is the list of the cells of one field;
      [df[c] = series] is [assign].  The columns that [detect_anomalies] and
      [engineer_features] add are kept by name with each row ([frow]).
    - A Python exception is [None] in the [option] type of the result.
    - [str] of a number, [np.log1p], [np.log] and the trained models are
      parameters: the properties hold whatever they compute. *)

From Stdlib Require Import QArith String Ascii List ZArith Lia Lqa Bool Floats.
Import ListNotations.
Local Open Scope string_scope.
Local Open Scope list_scope.
Local Open Scope Q_scope.

Set Implicit Arguments.

(* ================================================================== *)
(** * Python and pandas primitives *)
(* ================================================================== *)

Module Py.

(** ** Exceptions: a small error monad *)

Definition bind {A B : Type} (m : option A) (k : A -> option B) : option B :=
  match m with
  | Some a => k a
  | None => None
  end.

Definition ret {A : Type} (a : A) : option A := Some a.

Fixpoint mapM {A B : Type} (f : A -> option B) (l : list A) : option (list B) :=
  match l with
  | [] => Some []
  | a :: l' =>
      match f a with
      | Some b =>
          match mapM f l' with
          | Some bs => Some (b :: bs)
          | None => None
          end
      | None => None
      end
  end.

(** ** Numbers *)

(** A cell of a numeric column: [None] is [NaN]. *)
Definition num := option Q.

Definition Qlt_bool (x y : Q) : bool := negb (Qle_bool y x).

(** [x < c], [x > c], [x >= c]: false on [NaN]. *)
Definition lt (x : num) (c : Q) : bool :=
  match x with Some q => Qlt_bool q c | None => false end.
Definition gt (x : num) (c : Q) : bool :=
  match x with Some q => Qlt_bool c q | None => false end.
Definition ge (x : num) (c : Q) : bool :=
  match x with Some q => Qle_bool c q | None => false end.

(** [a < b] between two cells. *)
Definition lt2 (a b : num) : bool :=
  match a, b with Some x, Some y => Qlt_bool x y | _, _ => false end.

(** [a == c] for a number [c]. *)
Definition eqn (a : num) (c : Q) : bool :=
  match a with Some x => Qeq_bool x c | None => false end.

(** [(cond).astype(int)] on one cell of a boolean series. *)
Definition of_bool (b : bool) : num := Some (if b then 1 else 0).

(** [.astype(int)] on one cell of a numeric or categorical series: a
    [ValueError] on [NaN]. *)
Definition astype_int (x : num) : option num :=
  match x with Some q => Some (Some q) | None => None end.

(** [pd.cut(x, bins=[-inf, b1, ..., bk, inf], labels=[0, ..., k])] on one
    cell: the intervals are closed on the right, so the label is the number
    of break points below [x]; [NaN] has no label. *)
Definition cut (breaks : list Q) (x : num) : num :=
  match x with
  | Some q =>
      Some (inject_Z (Z.of_nat (length (filter (fun b => Qlt_bool b q) breaks))))
  | None => None
  end.

(** A numpy function of one argument on one cell: [NaN] stays [NaN]. *)
Definition ufunc (f : Q -> num) (x : num) : num :=
  match x with Some q => f q | None => None end.

(** The builtin [max(a, b)]: [b] when [b > a], else [a]. *)
Definition max (a : num) (b : Q) : num :=
  match a with
  | Some x => if Qlt_bool x b then Some b else Some x
  | None => None
  end.

(** [Series.clip(lower=c)] and [np.maximum(x, c)] on one cell: [NaN] stays. *)
Definition clip_lower (c : Q) (x : num) : num :=
  match x with
  | Some q => if Qlt_bool q c then Some c else Some q
  | None => None
  end.

(** [Series.fillna(v)] on one cell. *)
Definition fillna (v : num) (x : num) : num :=
  match x with Some q => Some q | None => v end.

Definition isna (x : num) : bool :=
  match x with Some _ => false | None => true end.

Definition add (a b : num) : num :=
  match a, b with Some x, Some y => Some (x + y) | _, _ => None end.

Definition mul (a b : num) : num :=
  match a, b with Some x, Some y => Some (x * y) | _, _ => None end.

(** Division of two Python numbers, [a / b]: [ZeroDivisionError] when the
    divisor is zero, [NaN] when an operand is [NaN]. *)
Definition div (a b : num) : option num :=
  match b with
  | Some d =>
      if Qeq_bool d 0 then None
      else Some (match a with Some n => Some (n / d) | None => None end)
  | None => Some None
  end.

(** Division of two numpy series, cell by cell.  numpy does not raise: a zero
    divisor gives a non-finite cell ([inf] or [nan]), which is [None] here. *)
Definition np_div (a b : num) : num :=
  match a, b with
  | Some n, Some d => if Qeq_bool d 0 then None else Some (n / d)
  | _, _ => None
  end.

(** ** Strings *)

(** [str.isspace] on the code points below 256. *)
Definition isspace (c : ascii) : bool :=
  let n := nat_of_ascii c in
  ((9 <=? n) && (n <=? 13) || (28 <=? n) && (n <=? 32)
   || (n =? 133) || (n =? 160))%nat.

Fixpoint lstrip (s : string) : string :=
  match s with
  | EmptyString => EmptyString
  | String c s' => if isspace c then lstrip s' else s
  end.

Fixpoint rstrip (s : string) : string :=
  match s with
  | EmptyString => EmptyString
  | String c s' =>
      match rstrip s' with
      | EmptyString => if isspace c then EmptyString else String c EmptyString
      | t => String c t
      end
  end.

(** [s.strip()] *)
Definition strip (s : string) : string := rstrip (lstrip s).

(** ** Values and dictionaries *)

(** A cell of an object column; a value of a row dictionary. *)
Inductive value : Type :=
| Str (s : string)
| Num (q : Q)
| NaN.

Definition of_num (x : num) : value :=
  match x with Some q => Num q | None => NaN end.

(** [v == s] for a string literal [s]. *)
Definition eq_str (v : value) (s : string) : bool :=
  match v with Str t => String.eqb t s | _ => false end.

(** [v in l] for a list [l] of string literals. *)
Definition in_strs (v : value) (l : list string) : bool :=
  existsb (eq_str v) l.

(** [v < c] and [v > c] for a number [c]: [TypeError] on a string, false on
    [NaN]. *)
Definition vlt (v : value) (c : Q) : option bool :=
  match v with
  | Num q => Some (Qlt_bool q c)
  | NaN => Some false
  | Str _ => None
  end.
Definition vgt (v : value) (c : Q) : option bool :=
  match v with
  | Num q => Some (Qlt_bool c q)
  | NaN => Some false
  | Str _ => None
  end.

(** A dictionary with string keys, as the list of its items. *)
Definition dict (V : Type) := list (string * V).

Fixpoint lookup {V : Type} (d : dict V) (k : string) : option V :=
  match d with
  | [] => None
  | (k', v) :: d' => if String.eqb k' k then Some v else lookup d' k
  end.

(** [d.get(k, default)] *)
Definition get {V : Type} (d : dict V) (k : string) (default : V) : V :=
  match lookup d k with Some v => v | None => default end.

Definition values {V : Type} (d : dict V) : list V := map snd d.

(** [d[k] = v]: an existing key keeps its place, a new one goes last. *)
Fixpoint update {V : Type} (d : dict V) (k : string) (v : V) : dict V :=
  match d with
  | [] => [(k, v)]
  | (k', v') :: d' =>
      if String.eqb k' k then (k, v) :: d' else (k', v') :: update d' k v
  end.

(** [series.map(d)] on one cell: a cell that is no key becomes [NaN]. *)
Definition map_dict (d : dict Q) (k : value) : num :=
  match k with Str s => lookup d s | _ => None end.

(** A dictionary whose keys are strings and numbers.  Keys are compared with
    [==]: a string equals only the same string, a number an equal number,
    [NaN] nothing. *)
Definition value_eqb (a b : value) : bool :=
  match a, b with
  | Str s, Str t => String.eqb s t
  | Num p, Num q => Qeq_bool p q
  | _, _ => false
  end.

Definition vdict (V : Type) := list (value * V).

Fixpoint vlookup {V : Type} (d : vdict V) (k : value) : option V :=
  match d with
  | [] => None
  | (k', v) :: d' => if value_eqb k' k then Some v else vlookup d' k
  end.

Definition vget {V : Type} (d : vdict V) (k : value) (default : V) : V :=
  match vlookup d k with Some v => v | None => default end.

End Py.

Notation "x <- m ;; k" := (Py.bind m (fun x => k))
  (at level 61, m at next level, right associativity).

Abbreviation num := Py.num.
Abbreviation value := Py.value.
Abbreviation Str := Py.Str.
Abbreviation Num := Py.Num.
Abbreviation NaN := Py.NaN.

(* ================================================================== *)
(** * Data model *)
(* ================================================================== *)

(** One row of the input frame: the columns of [REQUIRED_COLUMNS].  The
    numeric columns hold numbers or [NaN]; the categorical columns hold
    whatever the file had. *)
Record row : Type := mkRow {
  customer_id : value;
  tenure_months : num;
  contract_type : value;
  service_type : value;
  monthly_charges : num;
  total_charges : num;
  payment_method : value;
  location_type : value;
  num_services : num;
  data_usage_gb : num;
  support_calls : num;
  autopay_enabled : value;
  late_payment_count : num;
  referral_count : num
}.

Definition frame := list row.

Definition REQUIRED_COLUMNS : list string :=
  [ "customer_id"; "tenure_months"; "contract_type"; "service_type";
    "monthly_charges"; "total_charges"; "payment_method"; "location_type";
    "num_services"; "data_usage_gb"; "support_calls"; "autopay_enabled";
    "late_payment_count"; "referral_count" ].

(** [df[c] = ...] on one row, for each column the cleaning steps assign. *)
Definition set_tenure_months (v : num) (r : row) : row :=
  mkRow (customer_id r) v (contract_type r) (service_type r)
    (monthly_charges r) (total_charges r) (payment_method r) (location_type r)
    (num_services r) (data_usage_gb r) (support_calls r) (autopay_enabled r)
    (late_payment_count r) (referral_count r).
Definition set_contract_type (v : value) (r : row) : row :=
  mkRow (customer_id r) (tenure_months r) v (service_type r)
    (monthly_charges r) (total_charges r) (payment_method r) (location_type r)
    (num_services r) (data_usage_gb r) (support_calls r) (autopay_enabled r)
    (late_payment_count r) (referral_count r).
Definition set_service_type (v : value) (r : row) : row :=
  mkRow (customer_id r) (tenure_months r) (contract_type r) v
    (monthly_charges r) (total_charges r) (payment_method r) (location_type r)
    (num_services r) (data_usage_gb r) (support_calls r) (autopay_enabled r)
    (late_payment_count r) (referral_count r).
Definition set_monthly_charges (v : num) (r : row) : row :=
  mkRow (customer_id r) (tenure_months r) (contract_type r) (service_type r)
    v (total_charges r) (payment_method r) (location_type r)
    (num_services r) (data_usage_gb r) (support_calls r) (autopay_enabled r)
    (late_payment_count r) (referral_count r).
Definition set_total_charges (v : num) (r : row) : row :=
  mkRow (customer_id r) (tenure_months r) (contract_type r) (service_type r)
    (monthly_charges r) v (payment_method r) (location_type r)
    (num_services r) (data_usage_gb r) (support_calls r) (autopay_enabled r)
    (late_payment_count r) (referral_count r).
Definition set_payment_method (v : value) (r : row) : row :=
  mkRow (customer_id r) (tenure_months r) (contract_type r) (service_type r)
    (monthly_charges r) (total_charges r) v (location_type r)
    (num_services r) (data_usage_gb r) (support_calls r) (autopay_enabled r)
    (late_payment_count r) (referral_count r).
Definition set_location_type (v : value) (r : row) : row :=
  mkRow (customer_id r) (tenure_months r) (contract_type r) (service_type r)
    (monthly_charges r) (total_charges r) (payment_method r) v
    (num_services r) (data_usage_gb r) (support_calls r) (autopay_enabled r)
    (late_payment_count r) (referral_count r).
Definition set_num_services (v : num) (r : row) : row :=
  mkRow (customer_id r) (tenure_months r) (contract_type r) (service_type r)
    (monthly_charges r) (total_charges r) (payment_method r) (location_type r)
    v (data_usage_gb r) (support_calls r) (autopay_enabled r)
    (late_payment_count r) (referral_count r).
Definition set_data_usage_gb (v : num) (r : row) : row :=
  mkRow (customer_id r) (tenure_months r) (contract_type r) (service_type r)
    (monthly_charges r) (total_charges r) (payment_method r) (location_type r)
    (num_services r) v (support_calls r) (autopay_enabled r)
    (late_payment_count r) (referral_count r).
Definition set_support_calls (v : num) (r : row) : row :=
  mkRow (customer_id r) (tenure_months r) (contract_type r) (service_type r)
    (monthly_charges r) (total_charges r) (payment_method r) (location_type r)
    (num_services r) (data_usage_gb r) v (autopay_enabled r)
    (late_payment_count r) (referral_count r).
Definition set_autopay_enabled (v : value) (r : row) : row :=
  mkRow (customer_id r) (tenure_months r) (contract_type r) (service_type r)
    (monthly_charges r) (total_charges r) (payment_method r) (location_type r)
    (num_services r) (data_usage_gb r) (support_calls r) v
    (late_payment_count r) (referral_count r).
Definition set_late_payment_count (v : num) (r : row) : row :=
  mkRow (customer_id r) (tenure_months r) (contract_type r) (service_type r)
    (monthly_charges r) (total_charges r) (payment_method r) (location_type r)
    (num_services r) (data_usage_gb r) (support_calls r) (autopay_enabled r)
    v (referral_count r).
Definition set_referral_count (v : num) (r : row) : row :=
  mkRow (customer_id r) (tenure_months r) (contract_type r) (service_type r)
    (monthly_charges r) (total_charges r) (payment_method r) (location_type r)
    (num_services r) (data_usage_gb r) (support_calls r) (autopay_enabled r)
    (late_payment_count r) v.

(** ** Frames and series *)

(** [df[c]]: the column of one field. *)
Definition column {R A : Type} (field : R -> A) (df : list R) : list A :=
  map field df.

(** [df[c] = series]: the cells of [series] are stored row by row. *)
Fixpoint assign {R A : Type} (set : A -> R -> R) (series : list A)
    (df : list R) : list R :=
  match series, df with
  | v :: series', r :: df' => set v r :: assign set series' df'
  | _, _ => []
  end.

(** A binary operation on two series, cell by cell. *)
Fixpoint zip_with {A B C : Type} (op : A -> B -> C) (s : list A)
    (t : list B) : list C :=
  match s, t with
  | a :: s', b :: t' => op a b :: zip_with op s' t'
  | _, _ => []
  end.

(** [series.isna().any()] *)
Definition isna_any (s : list num) : bool := existsb Py.isna s.

(** The fitted statistics, [fe.stats]: a dictionary read from
    [feature_stats.json], each entry present or not. *)
Record stats : Type := mkStats {
  service_type_median_charges : option (Py.dict Q);
  service_type_median_usage : option (Py.dict Q);
  monthly_charges_p75 : option Q;
  data_usage_p25 : option Q
}.

(* ================================================================== *)
(** * Configuration *)
(* ================================================================== *)

Definition LR_FEATURE_SET : list string :=
  [ "tenure_log"; "is_new_customer"; "is_established";
    "service_encoded"; "avg_monthly_revenue"; "is_high_value";
    "price_sensitivity";
    "financial_stress"; "support_intensity"; "is_heavy_support";
    "usage_efficiency"; "usage_tier_ratio";
    "autopay_binary"; "referral_flag"; "loyalty_score";
    "contract_risk"; "contract_tenure_mismatch"; "payment_friction";
    "is_mpesa";
    "high_value_mtm"; "new_no_autopay"; "support_late_combo";
    "premium_low_usage"; "bundled_loyal";
    "pay_bank"; "pay_credit"; "pay_debit"; "pay_cash";
    "loc_suburban"; "loc_rural";
    "num_services"; "charges_anomaly_flag" ].

Definition XGBOOST_FEATURE_SET : list string :=
  [ "tenure_bin"; "is_new_customer"; "is_established"; "tenure_log";
    "avg_monthly_revenue"; "is_high_value"; "price_sensitivity";
    "monthly_charges_log";
    "support_intensity"; "is_heavy_support"; "late_payment_flag";
    "financial_stress";
    "usage_efficiency"; "usage_tier_ratio";
    "autopay_binary"; "referral_flag"; "loyalty_score";
    "contract_risk"; "contract_tenure_mismatch"; "payment_friction";
    "is_mpesa";
    "high_value_mtm"; "new_no_autopay"; "support_late_combo";
    "premium_low_usage"; "bundled_loyal";
    "service_encoded"; "pay_bank"; "pay_credit"; "pay_debit"; "pay_cash";
    "loc_suburban"; "loc_rural";
    "num_services"; "charges_anomaly_flag" ].

(** Risk thresholds *)
Definition HIGH_RISK_THRESHOLD : Q := 0.50.
Definition MEDIUM_RISK_THRESHOLD : Q := 0.35.

(** Membership in a list of names, and absence of repetition. *)
Fixpoint mem (x : string) (l : list string) : bool :=
  match l with
  | [] => false
  | y :: l' => String.eqb y x || mem x l'
  end.

Fixpoint distinct (l : list string) : bool :=
  match l with
  | [] => true
  | x :: l' => negb (mem x l') && distinct l'
  end.

(* ================================================================== *)
(** * Data cleaning and preprocessing *)
(* ================================================================== *)

Definition contract_map : Py.dict string :=
  [ ("Month-to-Month", "Month-to-Month"); ("month-to-month", "Month-to-Month");
    ("MTM", "Month-to-Month"); ("Monthly", "Month-to-Month");
    ("Month to Month", "Month-to-Month"); ("month to month", "Month-to-Month");
    ("One Year", "One Year"); ("One year", "One Year"); ("one year", "One Year");
    ("1 Year", "One Year"); ("1-Year", "One Year"); ("12 Months", "One Year");
    ("Two Year", "Two Year"); ("Two year", "Two Year"); ("two year", "Two Year");
    ("2 Year", "Two Year"); ("2-Year", "Two Year"); ("24 Months", "Two Year") ].

Definition payment_map : Py.dict string :=
  [ ("M-Pesa", "M-Pesa"); ("M-pesa", "M-Pesa"); ("MPESA", "M-Pesa");
    ("mpesa", "M-Pesa"); ("Mpesa", "M-Pesa");
    ("Bank Transfer", "Bank Transfer"); ("Bank transfer", "Bank Transfer");
    ("bank transfer", "Bank Transfer"); ("Bank_Transfer", "Bank Transfer");
    ("Credit Card", "Credit Card"); ("Credit card", "Credit Card");
    ("credit card", "Credit Card");
    ("Debit Card", "Debit Card"); ("Debit card", "Debit Card");
    ("debit card", "Debit Card");
    ("Cash", "Cash"); ("cash", "Cash"); ("CASH", "Cash") ].

Definition autopay_map : Py.vdict string :=
  [ (Str "Yes", "Yes"); (Str "yes", "Yes"); (Str "YES", "Yes"); (Str "Y", "Yes");
    (Str "True", "Yes"); (Str "true", "Yes"); (Str "1", "Yes"); (Num 1, "Yes");
    (Str "No", "No"); (Str "no", "No"); (Str "NO", "No"); (Str "N", "No");
    (Str "False", "No"); (Str "false", "No"); (Str "0", "No"); (Num 0, "No") ].

Definition valid_services : list string := [ "Basic"; "Standard"; "Premium" ].
Definition valid_locations : list string := [ "Urban"; "Suburban"; "Rural" ].

Section Cleaning.

(** [str(x)] of an [int] or of a [float] that is not [nan]: its text is
    taken as given. *)
Variable str_of_num : Q -> string.

(** [str(x)] *)
Definition str (x : value) : string :=
  match x with
  | Str s => s
  | Num q => str_of_num q
  | NaN => "nan"
  end.

(** [x if isinstance(x, (int, float)) else str(x).strip()] *)
Definition autopay_key (x : value) : value :=
  match x with
  | Str _ => Str (Py.strip (str x))
  | _ => x
  end.

(** The functions mapped over the categorical columns. *)
Definition norm_contract_type (x : value) : value :=
  Str (Py.get contract_map (Py.strip (str x)) "Month-to-Month").
Definition norm_payment_method (x : value) : value :=
  Str (Py.get payment_map (Py.strip (str x)) "M-Pesa").
Definition norm_autopay_enabled (x : value) : value :=
  Str (Py.vget autopay_map (autopay_key x) "No").
Definition norm_service_type (x : value) : value :=
  if Py.in_strs x valid_services then x else Str "Standard".
Definition norm_location_type (x : value) : value :=
  if Py.in_strs x valid_locations then x else Str "Urban".

Definition standardize_categoricals (df : frame) : frame :=
  let df :=
    assign set_contract_type
      (map norm_contract_type (column contract_type df)) df in
  let df :=
    assign set_payment_method
      (map norm_payment_method (column payment_method df)) df in
  let df :=
    assign set_autopay_enabled
      (map norm_autopay_enabled (column autopay_enabled df)) df in
  let df :=
    assign set_service_type
      (map norm_service_type (column service_type df)) df in
  let df :=
    assign set_location_type
      (map norm_location_type (column location_type df)) df in
  df.

(** The effect of [standardize_categoricals] on one row. *)
Definition standardize_row (r : row) : row :=
  let r := set_contract_type (norm_contract_type (contract_type r)) r in
  let r := set_payment_method (norm_payment_method (payment_method r)) r in
  let r := set_autopay_enabled (norm_autopay_enabled (autopay_enabled r)) r in
  let r := set_service_type (norm_service_type (service_type r)) r in
  let r := set_location_type (norm_location_type (location_type r)) r in
  r.

End Cleaning.

(** [fe_stats.get(key, {})] *)
Definition stats_get {A : Type} (entry : option A) (default : A) : A :=
  match entry with Some a => a | None => default end.

(** The columns of the loop [for col in numeric_cols], each with its
    assignment. *)
Definition numeric_cols : list ((row -> num) * (num -> row -> row)) :=
  [ (tenure_months, set_tenure_months); (num_services, set_num_services);
    (support_calls, set_support_calls);
    (late_payment_count, set_late_payment_count);
    (referral_count, set_referral_count) ].

Definition handle_missing_values (df : frame) (fe_stats : stats) : frame :=
  let df :=
    if isna_any (column monthly_charges df) then
      let median :=
        Py.get (stats_get (service_type_median_charges fe_stats) [])
          "Standard" 5000 in
      assign set_monthly_charges
        (map (Py.fillna (Some median)) (column monthly_charges df)) df
    else df in
  let df :=
    if isna_any (column data_usage_gb df) then
      let median :=
        Py.get (stats_get (service_type_median_usage fe_stats) [])
          "Standard" 70 in
      assign set_data_usage_gb
        (map (Py.fillna (Some median)) (column data_usage_gb df)) df
    else df in
  let df :=
    if isna_any (column total_charges df) then
      assign set_total_charges
        (zip_with (fun x v => Py.fillna v x) (column total_charges df)
           (zip_with Py.mul (column monthly_charges df)
              (map (Py.clip_lower 1) (column tenure_months df)))) df
    else df in
  let df :=
    fold_left
      (fun df col =>
         assign (snd col) (map (Py.fillna (Some 0)) (column (fst col) df)) df)
      numeric_cols df in
  let df :=
    assign set_tenure_months
      (map (Py.clip_lower 0) (column tenure_months df)) df in
  let df :=
    assign set_support_calls
      (map (Py.clip_lower 0) (column support_calls df)) df in
  df.

(** A row with its derived columns, in the order they were added. *)
Record frow : Type := mkFrow {
  base : row;
  derived : Py.dict num
}.

(** [df[name] = ...] on one row, for a derived column. *)
Definition set_col (name : string) (v : num) (r : frow) : frow :=
  mkFrow (base r) (Py.update (derived r) name v).

(** [df[c]] for an input column [c]. *)
Definition bcol {A : Type} (field : row -> A) (df : list frow) : list A :=
  column (fun r => field (base r)) df.

(** [df[name]] for a derived column: a [KeyError] when it was never set. *)
Definition dcol (name : string) (df : list frow) : option (list num) :=
  Py.mapM (fun r => Py.lookup (derived r) name) df.

(** [df.loc[mask, name] = v] *)
Definition loc_assign (name : string) (mask : list bool) (v : num)
    (df : list frow) : list frow :=
  zip_with (fun (m : bool) r => if m then set_col name v r else r) mask df.

Definition detect_anomalies (df : frame) : list frow :=
  let df := map (fun r => mkFrow r []) df in
  let df :=
    assign (set_col "charges_anomaly_flag") (map (fun _ => Some 0) df) df in
  let df :=
    loc_assign "charges_anomaly_flag"
      (zip_with Py.lt2 (bcol total_charges df) (bcol monthly_charges df))
      (Some 1) df in
  df.

(* ================================================================== *)
(** * Feature engineering *)
(* ================================================================== *)

(** [d.get(k, default)] on a dictionary of numbers, for a key and a default
    that are cells. *)
Definition get_cell (d : Py.dict Q) (k : value) (default : num) : num :=
  match k with
  | Str s => match Py.lookup d s with Some q => Some q | None => default end
  | _ => default
  end.

(** The function applied to each row for [price_sensitivity]:
    [row['monthly_charges'] /
       fe.stats['service_type_median_charges'].get(row['service_type'],
                                                   row['monthly_charges'])] *)
Definition price_sensitivity_row (fe : stats) (r : frow) : option num :=
  medians <- service_type_median_charges fe ;;
  Py.div (monthly_charges (base r))
    (get_cell medians (service_type (base r)) (monthly_charges (base r))).

(** The function applied to each row for [usage_tier_ratio]:
    [row['data_usage_gb'] /
       fe.stats['service_type_median_usage'].get(row['service_type'],
                                                 max(row['data_usage_gb'], 1))] *)
Definition usage_tier_ratio_row (fe : stats) (r : frow) : option num :=
  medians <- service_type_median_usage fe ;;
  Py.div (data_usage_gb (base r))
    (get_cell medians (service_type (base r))
       (Py.max (data_usage_gb (base r)) 1)).

Definition contract_risk_map : Py.dict Q :=
  [ ("Month-to-Month", 2); ("One Year", 1); ("Two Year", 0) ].

Definition service_map : Py.dict Q :=
  [ ("Basic", 0); ("Standard", 1); ("Premium", 2) ].

(** A statement [df[name] = expr]: the series [expr] is computed from the
    frame, which may raise, and stored as the column [name]. *)
Definition statement : Type := list frow -> option (list frow).

Definition assign_col (name : string)
    (expr : list frow -> option (list num)) : statement :=
  fun df => series <- expr df ;; Py.ret (assign (set_col name) series df).

Notation "name ::= expr" := (assign_col name expr) (at level 70).

(** The statements of a function body, run in order on the frame [df]. *)
Fixpoint run (body : list statement) (df : list frow) : option (list frow) :=
  match body with
  | [] => Py.ret df
  | s :: body' => df' <- s df ;; run body' df'
  end.

Section Features.

(** [np.log1p] and [np.log] on a number: their values are taken as given. *)
Variables np_log1p np_log : Q -> num.

(** [(series == s).astype(int)] *)
Definition is_str (s : string) (col : list value) : list num :=
  map (fun v => Py.of_bool (Py.eq_str v s)) col.

(** [((a) & (b)).astype(int)] for two boolean series. *)
Definition both (a b : list bool) : list num :=
  map Py.of_bool (zip_with andb a b).

Definition engineer_features (df : list frow) (fe : stats)
    : option (list frow) :=
  run
    [ (* Tenure features *)
      "tenure_bin" ::= (fun df =>
        Py.mapM Py.astype_int
          (map (Py.cut [5; 12; 24]) (bcol tenure_months df)));
      "is_new_customer" ::= (fun df =>
        Py.ret (map (fun x => Py.of_bool (Py.lt x 6)) (bcol tenure_months df)));
      "is_established" ::= (fun df =>
        Py.ret (map (fun x => Py.of_bool (Py.gt x 24)) (bcol tenure_months df)));
      "tenure_log" ::= (fun df =>
        Py.ret (map (Py.ufunc np_log1p) (bcol tenure_months df)));
      (* Financial features *)
      "avg_monthly_revenue" ::= (fun df =>
        Py.ret (zip_with Py.np_div (bcol total_charges df)
                  (map (Py.clip_lower 1) (bcol tenure_months df))));
      "is_high_value" ::= (fun df =>
        p75 <- monthly_charges_p75 fe ;;
        Py.ret (map (fun x => Py.of_bool (Py.gt x p75))
                  (bcol monthly_charges df)));
      (* Price sensitivity *)
      "price_sensitivity" ::= (fun df =>
        Py.mapM (price_sensitivity_row fe) df);
      "monthly_charges_log" ::= (fun df =>
        Py.ret (map (Py.ufunc np_log)
                  (map (Py.clip_lower 1) (bcol monthly_charges df))));
      (* Behavioral features *)
      "support_intensity" ::= (fun df =>
        Py.ret (zip_with Py.np_div (bcol support_calls df)
                  (map (Py.clip_lower 1) (bcol tenure_months df))));
      "is_heavy_support" ::= (fun df =>
        Py.ret (map (fun x => Py.of_bool (Py.gt x 5)) (bcol support_calls df)));
      "late_payment_flag" ::= (fun df =>
        Py.ret (map (fun x => Py.of_bool (Py.gt x 0))
                  (bcol late_payment_count df)));
      "financial_stress" ::= (fun df =>
        Py.mapM Py.astype_int
          (map (Py.cut [0; 2]) (bcol late_payment_count df)));
      "usage_efficiency" ::= (fun df =>
        Py.ret (zip_with Py.np_div (bcol data_usage_gb df)
                  (map (fun x => Py.add x (Some 1)) (bcol num_services df))));
      "usage_tier_ratio" ::= (fun df =>
        Py.mapM (usage_tier_ratio_row fe) df);
      (* Engagement features *)
      "autopay_binary" ::= (fun df =>
        Py.ret (is_str "Yes" (bcol autopay_enabled df)));
      "referral_flag" ::= (fun df =>
        Py.ret (map (fun x => Py.of_bool (Py.gt x 0)) (bcol referral_count df)));
      "loyalty_score" ::= (fun df =>
        is_established <- dcol "is_established" df ;;
        autopay_binary <- dcol "autopay_binary" df ;;
        Py.ret (zip_with Py.add
                  (zip_with Py.add (bcol referral_count df) is_established)
                  autopay_binary));
      (* Contract features *)
      "contract_risk" ::= (fun df =>
        Py.ret (map (Py.map_dict contract_risk_map) (bcol contract_type df)));
      "contract_tenure_mismatch" ::= (fun df =>
        Py.ret (both
                  (map (fun v => Py.eq_str v "Month-to-Month")
                     (bcol contract_type df))
                  (map (fun x => Py.gt x 12) (bcol tenure_months df))));
      "payment_friction" ::= (fun df =>
        Py.ret (both
                  (map (fun v => Py.eq_str v "Cash") (bcol payment_method df))
                  (map (fun v => Py.eq_str v "No") (bcol autopay_enabled df))));
      "is_mpesa" ::= (fun df =>
        Py.ret (is_str "M-Pesa" (bcol payment_method df)));
      (* Interaction features *)
      "high_value_mtm" ::= (fun df =>
        is_high_value <- dcol "is_high_value" df ;;
        Py.ret (both
                  (map (fun x => Py.eqn x 1) is_high_value)
                  (map (fun v => Py.eq_str v "Month-to-Month")
                     (bcol contract_type df))));
      "new_no_autopay" ::= (fun df =>
        is_new_customer <- dcol "is_new_customer" df ;;
        autopay_binary <- dcol "autopay_binary" df ;;
        Py.ret (both
                  (map (fun x => Py.eqn x 1) is_new_customer)
                  (map (fun x => Py.eqn x 0) autopay_binary)));
      "support_late_combo" ::= (fun df =>
        Py.ret (both
                  (map (fun x => Py.gt x 3) (bcol support_calls df))
                  (map (fun x => Py.gt x 1) (bcol late_payment_count df))));
      "premium_low_usage" ::= (fun df =>
        p25 <- data_usage_p25 fe ;;
        Py.ret (both
                  (map (fun v => Py.eq_str v "Premium") (bcol service_type df))
                  (map (fun x => Py.lt x p25) (bcol data_usage_gb df))));
      "bundled_loyal" ::= (fun df =>
        Py.ret (both
                  (map (fun x => Py.ge x 3) (bcol num_services df))
                  (map (fun x => Py.gt x 12) (bcol tenure_months df))));
      (* Categorical encoding *)
      "service_encoded" ::= (fun df =>
        Py.ret (map (Py.map_dict service_map) (bcol service_type df)));
      "pay_bank" ::= (fun df =>
        Py.ret (is_str "Bank Transfer" (bcol payment_method df)));
      "pay_credit" ::= (fun df =>
        Py.ret (is_str "Credit Card" (bcol payment_method df)));
      "pay_debit" ::= (fun df =>
        Py.ret (is_str "Debit Card" (bcol payment_method df)));
      "pay_cash" ::= (fun df =>
        Py.ret (is_str "Cash" (bcol payment_method df)));
      "loc_suburban" ::= (fun df =>
        Py.ret (is_str "Suburban" (bcol location_type df)));
      "loc_rural" ::= (fun df =>
        Py.ret (is_str "Rural" (bcol location_type df))) ]
    df.

End Features.

(* ================================================================== *)
(** * Prediction functions *)
(* ================================================================== *)

(** The trained models, [models]: each scorer gives the probability of
    churn for one feature vector ([predict_proba(X)[:, 1]] row by row), the
    scaler transforms one feature vector. *)
Record Models : Type := mkModels {
  xgboost_model : list num -> Q;
  lr_scaler : list num -> list num;
  lr_model : list num -> Q
}.

(** The cell of a numeric input column, by name. *)
Definition base_cell (r : row) (name : string) : option num :=
  Py.lookup
    [ ("tenure_months", tenure_months r);
      ("monthly_charges", monthly_charges r);
      ("total_charges", total_charges r);
      ("num_services", num_services r);
      ("data_usage_gb", data_usage_gb r);
      ("support_calls", support_calls r);
      ("late_payment_count", late_payment_count r);
      ("referral_count", referral_count r) ] name.

(** The cell of a numeric column of the engineered frame, by name: a
    [KeyError] when there is no such column. *)
Definition getcol (r : frow) (name : string) : option num :=
  match Py.lookup (derived r) name with
  | Some v => Some v
  | None => base_cell (base r) name
  end.

(** [df_features[FEATURE_SET]]: the matrix of the named columns. *)
Definition select (names : list string) (df : list frow)
    : option (list (list num)) :=
  Py.mapM (fun r => Py.mapM (getcol r) names) df.

Section Prediction.

Variable str_of_num : Q -> string.
Variables np_log1p np_log : Q -> num.

Definition predict_churn (df : frame) (models : Models) (fe : stats)
    (model_type : string) : option (list Q * list frow) :=
  (* Preprocess *)
  let df_clean := standardize_categoricals str_of_num df in
  let df_clean := handle_missing_values df_clean fe in
  let df_clean := detect_anomalies df_clean in
  df_features <- engineer_features np_log1p np_log df_clean fe ;;
  if String.eqb model_type "xgboost" then
    X <- select XGBOOST_FEATURE_SET df_features ;;
    let proba := map (xgboost_model models) X in
    Py.ret (proba, df_features)
  else
    X <- select LR_FEATURE_SET df_features ;;
    let X_scaled := map (lr_scaler models) X in
    let proba := map (lr_model models) X_scaled in
    Py.ret (proba, df_features).

End Prediction.

Definition get_risk_level (proba : Q) : string * string :=
  if Py.Qlt_bool HIGH_RISK_THRESHOLD proba then ("HIGH", "#FF4B4B")
  else if Py.Qlt_bool MEDIUM_RISK_THRESHOLD proba then ("MEDIUM", "#FFA500")
  else ("LOW", "#00CC66").

(** The same function on the binary64 numbers the code computes with, the
    thresholds being the floats nearest to 0.50 and 0.35. *)
Definition get_risk_level_binary64 (proba : float) : string * string :=
  if PrimFloat.ltb 0.50%float proba then ("HIGH", "#FF4B4B")
  else if PrimFloat.ltb 0.35%float proba then ("MEDIUM", "#FFA500")
  else ("LOW", "#00CC66").

Record Recommendation : Type := mkRec {
  priority : string;
  action : string;
  impact : string
}.

(** [customer_data.get(key) == s]: an absent key gives [None], which equals
    no string. *)
Definition get_eq (customer_data : Py.dict value) (key s : string) : bool :=
  match Py.lookup customer_data key with
  | Some v => Py.eq_str v s
  | None => false
  end.

Definition get_recommendations (customer_data : Py.dict value)
    (churn_proba : Q) : option (list Recommendation) :=
  let recommendations := [] in
  (* High probability - urgent *)
  let recommendations :=
    if Py.Qlt_bool HIGH_RISK_THRESHOLD churn_proba then
      recommendations ++
        [ mkRec "URGENT" "Schedule immediate retention call"
            "Direct intervention for high-risk customer" ]
    else recommendations in
  (* Contract-based *)
  let recommendations :=
    if get_eq customer_data "contract_type" "Month-to-Month" then
      recommendations ++
        [ mkRec "HIGH" "Offer 12-month contract with 15% discount"
            "Reduces churn odds by ~75%" ]
    else recommendations in
  (* Tenure-based *)
  c <- Py.vlt (Py.get customer_data "tenure_months" (Num 12)) 6 ;;
  let recommendations :=
    if c : bool then
      recommendations ++
        [ mkRec "HIGH" "Assign dedicated onboarding specialist"
            "New customers have +25% churn risk" ]
    else recommendations in
  (* Payment-based *)
  let recommendations :=
    if get_eq customer_data "autopay_enabled" "No" then
      recommendations ++
        [ mkRec "MEDIUM" "Enable autopay with KES 500 credit incentive"
            "Reduces churn odds by ~8%" ]
    else recommendations in
  (* Support-based *)
  c <- Py.vgt (Py.get customer_data "support_calls" (Num 0)) 3 ;;
  let recommendations :=
    if c : bool then
      recommendations ++
        [ mkRec "HIGH" "Escalate to customer success manager"
            "Heavy support users have +15% churn risk" ]
    else recommendations in
  (* Value-based *)
  c <- Py.vgt (Py.get customer_data "monthly_charges" (Num 0)) 6200 ;;
  let recommendations :=
    if c : bool then
      recommendations ++
        [ mkRec "HIGH" "VIP retention call + loyalty reward program"
            "High-value customers need special attention" ]
    else recommendations in
  (* Late payments *)
  c <- Py.vgt (Py.get customer_data "late_payment_count" (Num 0)) 2 ;;
  let recommendations :=
    if c : bool then
      recommendations ++
        [ mkRec "MEDIUM" "Offer flexible payment plan"
            "Financial stress increases churn risk" ]
    else recommendations in
  Py.ret recommendations.

(** A driver: label, priority, impact. *)
Definition Driver : Type := string * string * string.

Definition get_top_drivers {F C : Type} (customer_data : Py.dict value)
    (df_features : F) (coef_df : C) : option (list Driver) :=
  let drivers := [] in
  (* Check each feature's contribution *)
  let drivers :=
    if get_eq customer_data "contract_type" "Month-to-Month" then
      drivers ++ [ ("Month-to-Month Contract", "HIGH", "+75% churn odds") ]
    else drivers in
  c <- Py.vlt (Py.get customer_data "tenure_months" (Num 12)) 6 ;;
  let drivers :=
    if c : bool then
      drivers ++ [ ("New Customer (<6 months)", "HIGH", "+25% churn odds") ]
    else drivers in
  c <- Py.vgt (Py.get customer_data "monthly_charges" (Num 0)) 6200 ;;
  let drivers :=
    if c : bool then
      drivers ++ [ ("High-Value Customer", "MEDIUM", "+27% churn odds") ]
    else drivers in
  c <- Py.vgt (Py.get customer_data "support_calls" (Num 0)) 3 ;;
  let drivers :=
    if c : bool then
      drivers ++ [ ("High Support Usage", "MEDIUM", "+14% churn odds") ]
    else drivers in
  c <- Py.vgt (Py.get customer_data "late_payment_count" (Num 0)) 0 ;;
  let drivers :=
    if c : bool then
      drivers ++ [ ("Late Payments", "MEDIUM", "+16% churn odds") ]
    else drivers in
  let drivers :=
    if get_eq customer_data "autopay_enabled" "No" then
      drivers ++ [ ("No Autopay", "LOW", "+8% churn odds") ]
    else drivers in
  (* Positive factors (reduce churn) *)
  c <- Py.vgt (Py.get customer_data "tenure_months" (Num 0)) 24 ;;
  let drivers :=
    if c : bool then
      drivers ++ [ ("Established Customer", "POSITIVE", "-8% churn odds") ]
    else drivers in
  c <- Py.vgt (Py.get customer_data "referral_count" (Num 0)) 0 ;;
  let drivers :=
    if c : bool then
      drivers ++ [ ("Has Made Referrals", "POSITIVE", "-15% churn odds") ]
    else drivers in
  Py.ret (firstn 6 drivers).

(* ================================================================== *)
(** * Main application: the single-customer tab *)
(* ================================================================== *)

(** [customer_row.to_dict()] *)
Definition to_dict (r : row) : Py.dict value :=
  [ ("customer_id", customer_id r);
    ("tenure_months", Py.of_num (tenure_months r));
    ("contract_type", contract_type r);
    ("service_type", service_type r);
    ("monthly_charges", Py.of_num (monthly_charges r));
    ("total_charges", Py.of_num (total_charges r));
    ("payment_method", payment_method r);
    ("location_type", location_type r);
    ("num_services", Py.of_num (num_services r));
    ("data_usage_gb", Py.of_num (data_usage_gb r));
    ("support_calls", Py.of_num (support_calls r));
    ("autopay_enabled", autopay_enabled r);
    ("late_payment_count", Py.of_num (late_payment_count r));
    ("referral_count", Py.of_num (referral_count r)) ].

(** What the tab shows for the selected customer. *)
Record Assessment : Type := mkAssessment {
  churn_prob : Q;
  risk_level : string;
  features : list frow;
  drivers : list Driver;
  recommendations : list Recommendation
}.

Section Main.

Variable str_of_num : Q -> string.
Variables np_log1p np_log : Q -> num.

(** The body of the single-customer tab of [main], from the selected row on:
    [pd.DataFrame([customer_data])] is the frame of that one row. *)
Definition main_single_customer {C : Type} (customer_row : row)
    (models : Models) (fe : stats) (coef_df : C) (model_key : string)
    : option Assessment :=
  let customer_data := to_dict customer_row in
  (* Make prediction *)
  let customer_df := [customer_row] in
  res <- predict_churn str_of_num np_log1p np_log customer_df models fe
           model_key ;;
  let proba := fst res in
  let features_df := snd res in
  churn_prob <- nth_error proba 0 ;;
  let risk_level := fst (get_risk_level churn_prob) in
  (* Drivers and recommendations *)
  drivers <- get_top_drivers customer_data features_df coef_df ;;
  recommendations <- get_recommendations customer_data churn_prob ;;
  Py.ret (mkAssessment churn_prob risk_level features_df drivers
            recommendations).

End Main.

(* ================================================================== *)
(** * The pipeline on one row, and the words of the specification *)
(* ================================================================== *)

(** The medians [handle_missing_values] fills with. *)
Definition charges_fill (fe_stats : stats) : Q :=
  Py.get (stats_get (service_type_median_charges fe_stats) []) "Standard" 5000.
Definition usage_fill (fe_stats : stats) : Q :=
  Py.get (stats_get (service_type_median_usage fe_stats) []) "Standard" 70.

(** The effect of [handle_missing_values] on one row. *)
Definition impute_row (fe_stats : stats) (r : row) : row :=
  let r :=
    set_monthly_charges
      (Py.fillna (Some (charges_fill fe_stats)) (monthly_charges r)) r in
  let r :=
    set_data_usage_gb
      (Py.fillna (Some (usage_fill fe_stats)) (data_usage_gb r)) r in
  let r :=
    set_total_charges
      (Py.fillna
         (Py.mul (monthly_charges r) (Py.clip_lower 1 (tenure_months r)))
         (total_charges r)) r in
  let r :=
    fold_left (fun r col => snd col (Py.fillna (Some 0) (fst col r)) r)
      numeric_cols r in
  let r := set_tenure_months (Py.clip_lower 0 (tenure_months r)) r in
  let r := set_support_calls (Py.clip_lower 0 (support_calls r)) r in
  r.

(** The effect of [detect_anomalies] on one row. *)
Definition anomaly_row (r : row) : frow :=
  let f := set_col "charges_anomaly_flag" (Some 0) (mkFrow r []) in
  if Py.lt2 (total_charges r) (monthly_charges r)
  then set_col "charges_anomaly_flag" (Some 1) f
  else f.

(** The results of running a function on each record alone, put together
    in order; an exception of one run is an exception of the whole. *)
Definition concat_results {A B : Type} (rs : list (option (list A * list B)))
    : option (list A * list B) :=
  fold_right
    (fun r acc =>
       x <- r ;; y <- acc ;; Py.ret (fst x ++ fst y, snd x ++ snd y))
    (Some ([], [])) rs.

(** A function on frames that works row by row: it maps [g] over the rows. *)
Definition rows_of {T R : Type} (F : list T -> list R) (g : T -> R) : Prop :=
  forall l, F l = map g l.

(** The same for a function that may raise: on a frame that has a row, it
    raises when [g] raises on some row, and otherwise maps [g]. *)
Definition rows_ofM {T R : Type} (F : list T -> option (list R))
    (g : T -> option R) : Prop :=
  forall l, l <> [] -> F l = Py.mapM g l.

(** The statements of a function body run on one row. *)
Fixpoint run_row (body : list (frow -> option frow)) (r : frow)
    : option frow :=
  match body with
  | [] => Some r
  | s :: body' => r' <- s r ;; run_row body' r'
  end.

(** The shape of [predict_churn]: derive the rows, select a vector for each,
    score each vector. *)
Definition scored {T F V : Type} (g : T -> option F) (sel : F -> option V)
    (m : V -> Q) (l : list T) : option (list Q * list F) :=
  fs <- Py.mapM g l ;; X <- Py.mapM sel fs ;; Py.ret (map m X, fs).

(** ** The canonical values of the categorical fields *)

Definition contract_types : list string :=
  [ "Month-to-Month"; "One Year"; "Two Year" ].
Definition payment_methods : list string :=
  [ "M-Pesa"; "Bank Transfer"; "Credit Card"; "Debit Card"; "Cash" ].
Definition autopay_values : list string := [ "Yes"; "No" ].

Definition canonical (enum : list string) (v : value) : Prop :=
  exists s, v = Str s /\ In s enum.

Definition canonical_row (r : row) : Prop :=
  canonical contract_types (contract_type r) /\
  canonical payment_methods (payment_method r) /\
  canonical autopay_values (autopay_enabled r) /\
  canonical valid_services (service_type r) /\
  canonical valid_locations (location_type r).

Section Unrecognized.

Variable str_of_num : Q -> string.

(** A value outside the synonym table of its field goes to the default of
    the field: [r] is the input row, [r'] the normalized one. *)
Definition unrecognized_to_default (r r' : row) : Prop :=
  (Py.lookup contract_map (Py.strip (str str_of_num (contract_type r))) = None ->
   contract_type r' = Str "Month-to-Month") /\
  (Py.lookup payment_map (Py.strip (str str_of_num (payment_method r))) = None ->
   payment_method r' = Str "M-Pesa") /\
  (Py.vlookup autopay_map (autopay_key str_of_num (autopay_enabled r)) = None ->
   autopay_enabled r' = Str "No") /\
  (Py.in_strs (service_type r) valid_services = false ->
   service_type r' = Str "Standard") /\
  (Py.in_strs (location_type r) valid_locations = false ->
   location_type r' = Str "Urban").

End Unrecognized.

(** ** The rule table of the driver explainer, in the words of the
    specification: eight rules in a fixed order, each with its fact. *)
Definition driver_rules : list ((row -> bool) * Driver) :=
  [ (fun r => Py.eq_str (contract_type r) "Month-to-Month",
     ("Month-to-Month Contract", "HIGH", "+75% churn odds"));
    (fun r => Py.lt (tenure_months r) 6,
     ("New Customer (<6 months)", "HIGH", "+25% churn odds"));
    (fun r => Py.gt (monthly_charges r) 6200,
     ("High-Value Customer", "MEDIUM", "+27% churn odds"));
    (fun r => Py.gt (support_calls r) 3,
     ("High Support Usage", "MEDIUM", "+14% churn odds"));
    (fun r => Py.gt (late_payment_count r) 0,
     ("Late Payments", "MEDIUM", "+16% churn odds"));
    (fun r => Py.eq_str (autopay_enabled r) "No",
     ("No Autopay", "LOW", "+8% churn odds"));
    (fun r => Py.gt (tenure_months r) 24,
     ("Established Customer", "POSITIVE", "-8% churn odds"));
    (fun r => Py.gt (referral_count r) 0,
     ("Has Made Referrals", "POSITIVE", "-15% churn odds")) ].

(** One fact per satisfied rule, in the order of the table. *)
Definition matched_drivers (r : row) : list Driver :=
  map snd (filter (fun rule => fst rule r) driver_rules).

(** A segment that the fitted medians do not have. *)
Definition unseen (medians : Py.dict Q) (segment : value) : Prop :=
  match segment with
  | Str s => Py.lookup medians s = None
  | _ => True
  end.

(** ** Example inputs *)

Definition example_stats : stats :=
  mkStats
    (Some [ ("Basic", 2000); ("Standard", 4500); ("Premium", 8000) ])
    (Some [ ("Basic", 20); ("Standard", 60); ("Premium", 150) ])
    (Some 6200) (Some 25).

(** Fitted statistics that lack the Premium segment. *)
Definition stats_without_premium : stats :=
  mkStats
    (Some [ ("Basic", 2000); ("Standard", 4500) ])
    (Some [ ("Basic", 20); ("Standard", 60) ])
    (Some 6200) (Some 25).

Definition example_models : Models :=
  mkModels (fun _ => 0.4) (fun x => x) (fun _ => 0.6).

Definition example_str_of_num (q : Q) : string := "0".
Definition example_log (q : Q) : num := Some q.

(** A Premium customer whose charges and usage are missing. *)
Definition premium_row : row :=
  mkRow (Str "C-001") (Some 10) (Str "One Year") (Str "Premium")
    None (Some 90000) (Str "Cash") (Str "Urban") (Some 2) None (Some 1)
    (Str "Yes") (Some 0) (Some 0).

(** A customer whose tenure and total charges are both missing. *)
Definition no_tenure_row : row :=
  mkRow (Str "C-002") None (Str "One Year") (Str "Standard")
    (Some 3000) None (Str "Cash") (Str "Urban") (Some 2) (Some 40) (Some 1)
    (Str "Yes") (Some 0) (Some 0).

(** The end-to-end scenario of the specification, with the other columns
    filled in. *)
Definition scenario_row : row :=
  mkRow (Str "C-003") (Some 3) (Str "Month to Month") (Str "Standard")
    (Some 3000) (Some 9000) (Str "M-Pesa") (Str "Urban") (Some 1) (Some 50)
    (Some 0) (Str "No") (Some 0) (Some 0).

(** A customer who satisfies seven of the eight driver rules. *)
Definition seven_rules_row : row :=
  mkRow (Str "C-004") (Some 30) (Str "Month-to-Month") (Str "Premium")
    (Some 7000) (Some 210000) (Str "Cash") (Str "Urban") (Some 3) (Some 80)
    (Some 5) (Str "No") (Some 1) (Some 2).

(** A Premium customer with no charges. *)
Definition free_premium_row : frow :=
  mkFrow
    (mkRow (Str "C-005") (Some 10) (Str "One Year") (Str "Premium")
       (Some 0) (Some 0) (Str "Cash") (Str "Urban") (Some 2) (Some 0)
       (Some 1) (Str "Yes") (Some 0) (Some 0))
    [ ("charges_anomaly_flag", Some 0) ].

(** A Premium customer with charges and usage. *)
Definition paying_premium_row : frow :=
  mkFrow
    (mkRow (Str "C-006") (Some 10) (Str "One Year") (Str "Premium")
       (Some 9000) (Some 90000) (Str "Cash") (Str "Urban") (Some 2) (Some 120)
       (Some 1) (Str "Yes") (Some 0) (Some 0))
    [ ("charges_anomaly_flag", Some 0) ].

(* ================================================================== *)
(** * Feature engineering on one record *)
(* ================================================================== *)

(** A statement [df[name] = expr] on one row: [cell] computes the cell of
    the row from the row. *)
Definition assign_cell (name : string) (cell : frow -> option num)
    : frow -> option frow :=
  fun r => v <- cell r ;; Some (set_col name v r).

Section FeaturesRow.

Variables np_log1p np_log : Q -> num.

(** The effect of [engineer_features] on one row: its statements, each
    computing the cell of that row. *)
Definition engineer_row (fe : stats) : frow -> option frow :=
  run_row
    [ assign_cell "tenure_bin" (fun r =>
        Py.astype_int (Py.cut [5; 12; 24] (tenure_months (base r))));
      assign_cell "is_new_customer" (fun r =>
        Some (Py.of_bool (Py.lt (tenure_months (base r)) 6)));
      assign_cell "is_established" (fun r =>
        Some (Py.of_bool (Py.gt (tenure_months (base r)) 24)));
      assign_cell "tenure_log" (fun r =>
        Some (Py.ufunc np_log1p (tenure_months (base r))));
      assign_cell "avg_monthly_revenue" (fun r =>
        Some (Py.np_div (total_charges (base r))
                (Py.clip_lower 1 (tenure_months (base r)))));
      assign_cell "is_high_value" (fun r =>
        p75 <- monthly_charges_p75 fe ;;
        Some (Py.of_bool (Py.gt (monthly_charges (base r)) p75)));
      assign_cell "price_sensitivity" (price_sensitivity_row fe);
      assign_cell "monthly_charges_log" (fun r =>
        Some (Py.ufunc np_log (Py.clip_lower 1 (monthly_charges (base r)))));
      assign_cell "support_intensity" (fun r =>
        Some (Py.np_div (support_calls (base r))
                (Py.clip_lower 1 (tenure_months (base r)))));
      assign_cell "is_heavy_support" (fun r =>
        Some (Py.of_bool (Py.gt (support_calls (base r)) 5)));
      assign_cell "late_payment_flag" (fun r =>
        Some (Py.of_bool (Py.gt (late_payment_count (base r)) 0)));
      assign_cell "financial_stress" (fun r =>
        Py.astype_int (Py.cut [0; 2] (late_payment_count (base r))));
      assign_cell "usage_efficiency" (fun r =>
        Some (Py.np_div (data_usage_gb (base r))
                (Py.add (num_services (base r)) (Some 1))));
      assign_cell "usage_tier_ratio" (usage_tier_ratio_row fe);
      assign_cell "autopay_binary" (fun r =>
        Some (Py.of_bool (Py.eq_str (autopay_enabled (base r)) "Yes")));
      assign_cell "referral_flag" (fun r =>
        Some (Py.of_bool (Py.gt (referral_count (base r)) 0)));
      assign_cell "loyalty_score" (fun r =>
        is_established <- Py.lookup (derived r) "is_established" ;;
        autopay_binary <- Py.lookup (derived r) "autopay_binary" ;;
        Some (Py.add (Py.add (referral_count (base r)) is_established)
                autopay_binary));
      assign_cell "contract_risk" (fun r =>
        Some (Py.map_dict contract_risk_map (contract_type (base r))));
      assign_cell "contract_tenure_mismatch" (fun r =>
        Some (Py.of_bool
                (Py.eq_str (contract_type (base r)) "Month-to-Month"
                 && Py.gt (tenure_months (base r)) 12)));
      assign_cell "payment_friction" (fun r =>
        Some (Py.of_bool
                (Py.eq_str (payment_method (base r)) "Cash"
                 && Py.eq_str (autopay_enabled (base r)) "No")));
      assign_cell "is_mpesa" (fun r =>
        Some (Py.of_bool (Py.eq_str (payment_method (base r)) "M-Pesa")));
      assign_cell "high_value_mtm" (fun r =>
        is_high_value <- Py.lookup (derived r) "is_high_value" ;;
        Some (Py.of_bool
                (Py.eqn is_high_value 1
                 && Py.eq_str (contract_type (base r)) "Month-to-Month")));
      assign_cell "new_no_autopay" (fun r =>
        is_new_customer <- Py.lookup (derived r) "is_new_customer" ;;
        autopay_binary <- Py.lookup (derived r) "autopay_binary" ;;
        Some (Py.of_bool
                (Py.eqn is_new_customer 1 && Py.eqn autopay_binary 0)));
      assign_cell "support_late_combo" (fun r =>
        Some (Py.of_bool
                (Py.gt (support_calls (base r)) 3
                 && Py.gt (late_payment_count (base r)) 1)));
      assign_cell "premium_low_usage" (fun r =>
        p25 <- data_usage_p25 fe ;;
        Some (Py.of_bool
                (Py.eq_str (service_type (base r)) "Premium"
                 && Py.lt (data_usage_gb (base r)) p25)));
      assign_cell "bundled_loyal" (fun r =>
        Some (Py.of_bool
                (Py.ge (num_services (base r)) 3
                 && Py.gt (tenure_months (base r)) 12)));
      assign_cell "service_encoded" (fun r =>
        Some (Py.map_dict service_map (service_type (base r))));
      assign_cell "pay_bank" (fun r =>
        Some (Py.of_bool (Py.eq_str (payment_method (base r)) "Bank Transfer")));
      assign_cell "pay_credit" (fun r =>
        Some (Py.of_bool (Py.eq_str (payment_method (base r)) "Credit Card")));
      assign_cell "pay_debit" (fun r =>
        Some (Py.of_bool (Py.eq_str (payment_method (base r)) "Debit Card")));
      assign_cell "pay_cash" (fun r =>
        Some (Py.of_bool (Py.eq_str (payment_method (base r)) "Cash")));
      assign_cell "loc_suburban" (fun r =>
        Some (Py.of_bool (Py.eq_str (location_type (base r)) "Suburban")));
      assign_cell "loc_rural" (fun r =>
        Some (Py.of_bool (Py.eq_str (location_type (base r)) "Rural"))) ].

End FeaturesRow.

Section FeatureTable.

Variables np_log1p np_log : Q -> num.

(** The derived columns of one record, each by its formula on the input
    columns [c] of the record: [p75] and [p25] are the fitted percentiles,
    [ps] and [ut] the two ratios to the segment medians. *)
Definition feature_cells (p75 p25 : Q) (ps ut : num) (c : row)
    : Py.dict num :=
  let mtm := Py.eq_str (contract_type c) "Month-to-Month" in
  let is_new_customer := Py.lt (tenure_months c) 6 in
  let is_established := Py.gt (tenure_months c) 24 in
  let is_high_value := Py.gt (monthly_charges c) p75 in
  let autopay := Py.eq_str (autopay_enabled c) "Yes" in
  [ ("charges_anomaly_flag",
     Py.of_bool (Py.lt2 (total_charges c) (monthly_charges c)));
    ("tenure_bin", Py.cut [5; 12; 24] (tenure_months c));
    ("is_new_customer", Py.of_bool is_new_customer);
    ("is_established", Py.of_bool is_established);
    ("tenure_log", Py.ufunc np_log1p (tenure_months c));
    ("avg_monthly_revenue",
     Py.np_div (total_charges c) (Py.clip_lower 1 (tenure_months c)));
    ("is_high_value", Py.of_bool is_high_value);
    ("price_sensitivity", ps);
    ("monthly_charges_log",
     Py.ufunc np_log (Py.clip_lower 1 (monthly_charges c)));
    ("support_intensity",
     Py.np_div (support_calls c) (Py.clip_lower 1 (tenure_months c)));
    ("is_heavy_support", Py.of_bool (Py.gt (support_calls c) 5));
    ("late_payment_flag", Py.of_bool (Py.gt (late_payment_count c) 0));
    ("financial_stress", Py.cut [0; 2] (late_payment_count c));
    ("usage_efficiency",
     Py.np_div (data_usage_gb c) (Py.add (num_services c) (Some 1)));
    ("usage_tier_ratio", ut);
    ("autopay_binary", Py.of_bool autopay);
    ("referral_flag", Py.of_bool (Py.gt (referral_count c) 0));
    ("loyalty_score",
     Py.add (Py.add (referral_count c) (Py.of_bool is_established))
       (Py.of_bool autopay));
    ("contract_risk", Py.map_dict contract_risk_map (contract_type c));
    ("contract_tenure_mismatch",
     Py.of_bool (mtm && Py.gt (tenure_months c) 12));
    ("payment_friction",
     Py.of_bool (Py.eq_str (payment_method c) "Cash"
                 && Py.eq_str (autopay_enabled c) "No"));
    ("is_mpesa", Py.of_bool (Py.eq_str (payment_method c) "M-Pesa"));
    ("high_value_mtm", Py.of_bool (is_high_value && mtm));
    ("new_no_autopay", Py.of_bool (is_new_customer && negb autopay));
    ("support_late_combo",
     Py.of_bool (Py.gt (support_calls c) 3
                 && Py.gt (late_payment_count c) 1));
    ("premium_low_usage",
     Py.of_bool (Py.eq_str (service_type c) "Premium"
                 && Py.lt (data_usage_gb c) p25));
    ("bundled_loyal",
     Py.of_bool (Py.ge (num_services c) 3 && Py.gt (tenure_months c) 12));
    ("service_encoded", Py.map_dict service_map (service_type c));
    ("pay_bank", Py.of_bool (Py.eq_str (payment_method c) "Bank Transfer"));
    ("pay_credit", Py.of_bool (Py.eq_str (payment_method c) "Credit Card"));
    ("pay_debit", Py.of_bool (Py.eq_str (payment_method c) "Debit Card"));
    ("pay_cash", Py.of_bool (Py.eq_str (payment_method c) "Cash"));
    ("loc_suburban", Py.of_bool (Py.eq_str (location_type c) "Suburban"));
    ("loc_rural", Py.of_bool (Py.eq_str (location_type c) "Rural")) ].

(** Feature derivation on one record with input columns [c]: what raises,
    and the row it gives. *)
Definition derive_record (fe : stats) (c : row) : option frow :=
  _ <- tenure_months c ;;
  _ <- late_payment_count c ;;
  p75 <- monthly_charges_p75 fe ;;
  p25 <- data_usage_p25 fe ;;
  ps <- price_sensitivity_row fe (mkFrow c []) ;;
  ut <- usage_tier_ratio_row fe (mkFrow c []) ;;
  Some (mkFrow c (feature_cells p75 p25 ps ut c)).

End FeatureTable.

(* ================================================================== *)
(** * Properties *)
(* ================================================================== *)

(** ** Comparisons of rationals *)

Lemma Qlt_bool_iff (x y : Q) : Py.Qlt_bool x y = true <-> x < y.
Proof.
  unfold Py.Qlt_bool. rewrite negb_true_iff. split.
  - intros H. apply Qnot_le_lt. intros L.
    apply Qle_bool_iff in L. congruence.
  - intros H. destruct (Qle_bool y x) eqn:E; [|reflexivity].
    apply Qle_bool_iff in E. exfalso. apply (Qlt_not_le _ _ H E).
Qed.

Lemma Qlt_bool_false_iff (x y : Q) : Py.Qlt_bool x y = false <-> y <= x.
Proof.
  unfold Py.Qlt_bool. rewrite negb_false_iff. apply Qle_bool_iff.
Qed.

(** ** Feature sets *)

Lemma mem_In (x : string) (l : list string) : mem x l = true <-> In x l.
Proof.
  induction l as [|y l IH]; simpl.
  - split; [discriminate | tauto].
  - rewrite orb_true_iff, IH, String.eqb_eq. tauto.
Qed.

Lemma distinct_NoDup (l : list string) : distinct l = true -> NoDup l.
Proof.
  induction l as [|x l IH]; simpl; intros H.
  - constructor.
  - apply andb_true_iff in H. destruct H as [H1 H2]. constructor.
    + rewrite <- mem_In. now destruct (mem x l).
    + auto.
Qed.

Lemma forallb_mem_incl (l1 l2 : list string) :
  forallb (fun x => mem x l2) l1 = true -> incl l1 l2.
Proof.
  intros H x Hx. rewrite forallb_forall in H. apply mem_In. auto.
Qed.

(** C2, as the code has it: the linear feature set names 32 features and
    the tree feature set names 35, without repetition; every linear feature
    is a tree feature, and the tree features that are not linear ones are
    exactly tenure_bin, monthly_charges_log and late_payment_flag. *)
Theorem feature_sets_sizes_and_difference :
  length LR_FEATURE_SET = 32%nat /\
  length XGBOOST_FEATURE_SET = 35%nat /\
  NoDup LR_FEATURE_SET /\
  NoDup XGBOOST_FEATURE_SET /\
  incl LR_FEATURE_SET XGBOOST_FEATURE_SET /\
  filter (fun x => negb (mem x LR_FEATURE_SET)) XGBOOST_FEATURE_SET
    = [ "tenure_bin"; "monthly_charges_log"; "late_payment_flag" ].
Proof.
  repeat split.
  - apply distinct_NoDup. vm_compute. reflexivity.
  - apply distinct_NoDup. vm_compute. reflexivity.
  - apply forallb_mem_incl. vm_compute. reflexivity.
Qed.

(** C2, as the specification words it, fails: the tree feature set does not
    have 34 members. *)
Lemma tree_feature_set_is_not_34 :
  ~ (length LR_FEATURE_SET = 32%nat /\ length XGBOOST_FEATURE_SET = 34%nat).
Proof.
  intros [_ H]. vm_compute in H. discriminate.
Qed.

(** ** Risk tiers *)

(** C3: the risk level is HIGH exactly above 0.50, MEDIUM exactly above 0.35
    and up to 0.50, and LOW otherwise; 0.50 is MEDIUM, 0.35 is LOW and 0.51
    is HIGH. *)
Theorem get_risk_level_thresholds (p : Q) :
  (fst (get_risk_level p) = "HIGH" <-> 0.50 < p) /\
  (fst (get_risk_level p) = "MEDIUM" <-> 0.35 < p /\ p <= 0.50) /\
  (fst (get_risk_level p) = "LOW" <-> ~ 0.50 < p /\ ~ (0.35 < p /\ p <= 0.50)) /\
  fst (get_risk_level 0.50) = "MEDIUM" /\
  fst (get_risk_level 0.35) = "LOW" /\
  fst (get_risk_level 0.51) = "HIGH".
Proof.
  unfold get_risk_level, HIGH_RISK_THRESHOLD, MEDIUM_RISK_THRESHOLD.
  destruct (Py.Qlt_bool 0.50 p) eqn:H; destruct (Py.Qlt_bool 0.35 p) eqn:M;
    try apply Qlt_bool_iff in H; try apply Qlt_bool_iff in M;
    try apply Qlt_bool_false_iff in H; try apply Qlt_bool_false_iff in M;
    simpl; repeat split; intros; try discriminate; try assumption;
    try reflexivity;
    repeat match goal with
           | K : _ /\ _ |- _ => destruct K
           | |- ~ _ => intro
           end;
    try lra.
Qed.

(** The thresholds on binary64 numbers.  Two numbers that compare, compare
    the other way round when swapped; they fail to compare only when one is
    not a number. *)
Lemma SFcompare_swap {x y : spec_float} {c : comparison} :
  SFcompare x y = Some c -> SFcompare y x = Some (CompOpp c).
Proof.
  destruct x as [s1|s1| |s1 m1 e1], y as [s2|s2| |s2 m2 e2]; simpl;
    intros [= <-]; try discriminate;
    try (destruct s1; reflexivity); try (destruct s2; reflexivity);
    try (destruct s1, s2; reflexivity).
  f_equal. rewrite (Z.compare_antisym e1 e2).
  change (PosDef.Pos.compare_cont Eq m2 m1) with (Pos.compare m2 m1).
  change (PosDef.Pos.compare_cont Eq m1 m2) with (Pos.compare m1 m2).
  rewrite (Pos.compare_antisym m1 m2).
  destruct s1, s2, (e1 ?= e2)%Z, (m1 ?= m2)%positive; reflexivity.
Qed.

Lemma SFcompare_None (x y : spec_float) :
  SFcompare x y = None -> x = S754_nan \/ y = S754_nan.
Proof.
  destruct x, y; simpl; intros H; try discriminate; auto.
Qed.

Lemma not_above_half {p : float} :
  PrimFloat.ltb 0.35 p = true ->
  PrimFloat.ltb 0.50 p = false <-> PrimFloat.leb p 0.50 = true.
Proof.
  rewrite !ltb_spec, leb_spec. unfold SFltb, SFleb.
  destruct (SFcompare (Prim2SF 0.35) (Prim2SF p)) as [c0|] eqn:E0;
    [|discriminate].
  intros _.
  destruct (SFcompare (Prim2SF 0.50) (Prim2SF p)) as [c|] eqn:E.
  - rewrite (SFcompare_swap E). destruct c; simpl; split; congruence.
  - apply SFcompare_None in E. destruct E as [E|E].
    + vm_compute in E. discriminate.
    + rewrite E in E0. vm_compute in E0. discriminate.
Qed.

(** The risk tiers hold as well on the binary64 numbers of the code, nan and
    the infinities among them: HIGH exactly above 0.50, MEDIUM exactly above
    0.35 and up to 0.50, LOW otherwise (nan is LOW). *)
Lemma get_risk_level_binary64_thresholds (p : float) :
  (fst (get_risk_level_binary64 p) = "HIGH" <-> PrimFloat.ltb 0.50 p = true) /\
  (fst (get_risk_level_binary64 p) = "MEDIUM" <->
   PrimFloat.ltb 0.35 p = true /\ PrimFloat.leb p 0.50 = true) /\
  (fst (get_risk_level_binary64 p) = "LOW" <->
   PrimFloat.ltb 0.50 p <> true /\
   ~ (PrimFloat.ltb 0.35 p = true /\ PrimFloat.leb p 0.50 = true)) /\
  fst (get_risk_level_binary64 0.50) = "MEDIUM" /\
  fst (get_risk_level_binary64 0.35) = "LOW" /\
  fst (get_risk_level_binary64 0.51) = "HIGH" /\
  fst (get_risk_level_binary64 PrimFloat.nan) = "LOW".
Proof.
  pose proof (@not_above_half p) as K. unfold get_risk_level_binary64.
  destruct (PrimFloat.ltb 0.50 p) eqn:H, (PrimFloat.ltb 0.35 p) eqn:M;
    simpl; repeat split; intros; try discriminate; try reflexivity;
    try tauto; try (apply K; reflexivity);
    try (destruct K as [K1 K2]; [reflexivity|]; intuition congruence);
    try intuition congruence.
Qed.

(** ** Series and frames *)

Lemma assign_map {R A T : Type} (set : A -> R -> R) (f : T -> A) (g : T -> R)
    (l : list T) :
  assign set (map f l) (map g l) = map (fun t => set (f t) (g t)) l.
Proof. induction l; simpl; congruence. Qed.

Lemma assign_map_id {R A : Type} (set : A -> R -> R) (f : R -> A)
    (l : list R) :
  assign set (map f l) l = map (fun r => set (f r) r) l.
Proof. induction l; simpl; congruence. Qed.

Lemma zip_with_map {A B C T : Type} (op : A -> B -> C) (f : T -> A)
    (g : T -> B) (l : list T) :
  zip_with op (map f l) (map g l) = map (fun t => op (f t) (g t)) l.
Proof. induction l; simpl; congruence. Qed.

Lemma zip_with_map_id {A C T : Type} (op : A -> T -> C) (f : T -> A)
    (l : list T) :
  zip_with op (map f l) l = map (fun t => op (f t) t) l.
Proof. induction l; simpl; congruence. Qed.

Lemma Forall2_map_r {A B : Type} (P : A -> B -> Prop) (f : A -> B)
    (l : list A) :
  (forall a, P a (f a)) -> Forall2 P l (map f l).
Proof. intros H. induction l; simpl; constructor; auto. Qed.

Lemma guard_rows (get : row -> num) (step : row -> row) (df : frame) :
  (forall r, Py.isna (get r) = false -> step r = r) ->
  (if isna_any (column get df) then map step df else df) = map step df.
Proof.
  intros Hstep. unfold isna_any, column.
  destruct (existsb Py.isna (map get df)) eqn:E; [reflexivity|].
  induction df as [|r df IH]; simpl in *; [reflexivity|].
  apply orb_false_iff in E. destruct E as [E1 E2].
  rewrite Hstep by assumption. f_equal. auto.
Qed.

Ltac series :=
  unfold bcol, column, is_str, both;
  repeat (rewrite ?map_map, ?zip_with_map, ?zip_with_map_id, ?assign_map,
            ?assign_map_id).

Lemma standardize_categoricals_rows (s : Q -> string) (df : frame) :
  standardize_categoricals s df = map (standardize_row s) df.
Proof.
  unfold standardize_categoricals. cbv zeta. series. reflexivity.
Qed.

Lemma fill_numeric_cols_rows (cols : list ((row -> num) * (num -> row -> row)))
    (df : frame) :
  fold_left
    (fun df col =>
       assign (snd col) (map (Py.fillna (Some 0)) (column (fst col) df)) df)
    cols df
  = map (fun r =>
           fold_left (fun r col => snd col (Py.fillna (Some 0) (fst col r)) r)
             cols r) df.
Proof.
  revert df. induction cols as [|c cols IH]; intros df; simpl.
  - symmetry. apply map_id.
  - rewrite IH. series. reflexivity.
Qed.

Lemma rows_id {T : Type} : rows_of (fun l : list T => l) (fun t => t).
Proof. intros l. symmetry. apply map_id. Qed.

Lemma rows_let {T U R : Type} (E : list T -> list U) (K : list U -> list R)
    (e : T -> U) (k : U -> R) :
  rows_of E e -> rows_of K k ->
  rows_of (fun l => let df := E l in K df) (fun t => k (e t)).
Proof. intros HE HK l. cbv zeta. rewrite HE, HK. apply map_map. Qed.

Lemma rows_guard (get : row -> num) (E : frame -> frame) (step : row -> row) :
  rows_of E step ->
  (forall r, Py.isna (get r) = false -> step r = r) ->
  rows_of (fun df => if isna_any (column get df) then E df else df) step.
Proof. intros HE Hs df. rewrite HE. now apply guard_rows. Qed.

Lemma rows_ext {T R : Type} (F : list T -> list R) (g g' : T -> R) :
  rows_of F g -> (forall t, g t = g' t) -> rows_of F g'.
Proof. intros H E l. rewrite H. now apply map_ext. Qed.

Ltac rows_assign := intros ?; series; reflexivity.

Ltac not_na :=
  intros [] ?; simpl in *;
  match goal with
  | H : Py.isna ?x = false |- _ => destruct x; [reflexivity | discriminate]
  end.

Ltac rows_step tac :=
  lazymatch goal with
  | |- rows_of (fun l => let df := @?E l in @?K df) _ =>
      eapply (@rows_let _ _ _ E K); [tac |]
  end.

Ltac rows_guarded := eapply rows_guard; [rows_assign | not_na].

Lemma handle_missing_values_rows (fe_stats : stats) :
  rows_of (fun df => handle_missing_values df fe_stats) (impute_row fe_stats).
Proof.
  eapply rows_ext.
  - cbv beta delta [handle_missing_values].
    do 3 rows_step rows_guarded.
    rows_step ltac:(intros ?; apply fill_numeric_cols_rows).
    do 2 rows_step rows_assign.
    apply rows_id.
  - reflexivity.
Qed.

Lemma detect_anomalies_rows : rows_of detect_anomalies anomaly_row.
Proof.
  eapply rows_ext.
  - cbv beta delta [detect_anomalies].
    rows_step ltac:(intros ?; reflexivity).
    rows_step rows_assign.
    rows_step ltac:(intros ?; unfold loc_assign; series; reflexivity).
    apply rows_id.
  - intros r. unfold anomaly_row. simpl. reflexivity.
Qed.

(** ** Row-wise monadic steps *)

Lemma mapM_map {A B C : Type} (f : B -> option C) (g : A -> B) (l : list A) :
  Py.mapM f (map g l) = Py.mapM (fun a => f (g a)) l.
Proof. induction l as [|a l IH]; simpl; [reflexivity | now rewrite IH]. Qed.

Lemma mapM_Some {A : Type} (l : list A) : Py.mapM (fun a => Some a) l = Some l.
Proof. induction l as [|a l IH]; simpl; [reflexivity | now rewrite IH]. Qed.

Lemma mapM_length {A B : Type} (f : A -> option B) (l : list A) (l' : list B) :
  Py.mapM f l = Some l' -> length l' = length l.
Proof.
  revert l'. induction l as [|a l IH]; simpl; intros l' H.
  - now inversion H.
  - destruct (f a); [|discriminate].
    destruct (Py.mapM f l); [|discriminate].
    inversion H. simpl. f_equal. now apply IH.
Qed.

Lemma rowsM_ret {T : Type} :
  rows_ofM (fun l : list T => Py.ret l) (fun t => Some t).
Proof. intros l _. symmetry. apply mapM_Some. Qed.

Lemma rowsM_let {T U R : Type} (E : list T -> list U)
    (K : list U -> option (list R)) (e : T -> U) (k : U -> option R) :
  rows_of E e -> rows_ofM K k ->
  rows_ofM (fun l => let df := E l in K df) (fun t => k (e t)).
Proof.
  intros HE HK l Hl. cbv zeta. rewrite HE, HK.
  - apply mapM_map.
  - destruct l; [congruence | discriminate].
Qed.

Lemma rowsM_bind_const {T R P : Type} (c : option P)
    (K : P -> list T -> option (list R)) (k : P -> T -> option R) :
  (forall p, rows_ofM (K p) (k p)) ->
  rows_ofM (fun l => p <- c ;; K p l) (fun t => p <- c ;; k p t).
Proof.
  intros HK l Hl. destruct c as [p|]; simpl.
  - now apply HK.
  - destruct l; [congruence | reflexivity].
Qed.

Lemma mapM_bind_combine {T A R : Type} (c : T -> option A)
    (k : A * T -> option R) (l : list T) :
  Py.mapM (fun t => v <- c t ;; k (v, t)) l
  = (xs <- Py.mapM c l ;; Py.mapM k (combine xs l)).
Proof.
  induction l as [|t l IH]; simpl; [reflexivity|].
  destruct (c t) as [v|]; simpl; [|reflexivity].
  rewrite IH. destruct (Py.mapM c l) as [xs|]; simpl.
  - reflexivity.
  - now destruct (k (v, t)).
Qed.

Lemma map_fst_combine {A B : Type} (xs : list A) (l : list B) :
  length xs = length l -> map fst (combine xs l) = xs.
Proof.
  revert l. induction xs as [|x xs IH]; intros [|b l] H; simpl in *;
    try reflexivity; try discriminate.
  f_equal. apply IH. now inversion H.
Qed.

Lemma map_snd_combine {A B : Type} (xs : list A) (l : list B) :
  length xs = length l -> map snd (combine xs l) = l.
Proof.
  revert l. induction xs as [|x xs IH]; intros [|b l] H; simpl in *;
    try reflexivity; try discriminate.
  f_equal. apply IH. now inversion H.
Qed.

Lemma rowsM_bind_series {T A R : Type} (M : list T -> option (list A))
    (c : T -> option A) (K : list A -> list T -> option (list R))
    (k : A * T -> option R) :
  (forall l, M l = Py.mapM c l) ->
  rows_ofM (fun l2 : list (A * T) => K (map fst l2) (map snd l2)) k ->
  rows_ofM (fun l => x <- M l ;; K x l) (fun t => v <- c t ;; k (v, t)).
Proof.
  intros HM HK l Hl. rewrite mapM_bind_combine, HM.
  destruct (Py.mapM c l) as [xs|] eqn:E; simpl; [|reflexivity].
  apply mapM_length in E.
  rewrite <- HK.
  - now rewrite map_fst_combine, map_snd_combine.
  - destruct l, xs; simpl in *; congruence.
Qed.

Lemma rowsM_pure {T R : Type} (S : list T -> list R) (s : T -> R) :
  rows_of S s -> rows_ofM (fun l => Py.ret (S l)) (fun t => Some (s t)).
Proof.
  intros HS l _. rewrite HS. unfold Py.ret.
  rewrite <- (mapM_Some (map s l)). apply mapM_map.
Qed.

Lemma rowsM_mapM {T A R : Type} (c : A -> option R) (S : list T -> list A)
    (s : T -> A) :
  rows_of S s -> rows_ofM (fun l => Py.mapM c (S l)) (fun t => c (s t)).
Proof. intros HS l _. rewrite HS. apply mapM_map. Qed.

Lemma mapM_assign {R A : Type} (set : A -> R -> R) (c : R -> option A)
    (l : list R) :
  Py.mapM (fun r => v <- c r ;; Some (set v r)) l
  = (xs <- Py.mapM c l ;; Py.ret (assign set xs l)).
Proof.
  induction l as [|r l IH]; simpl; [reflexivity|].
  destruct (c r) as [v|]; simpl; [|reflexivity].
  rewrite IH. now destruct (Py.mapM c l).
Qed.

Lemma rowsM_assign_col (name : string) (expr : list frow -> option (list num))
    (c : frow -> option num) :
  rows_ofM expr c ->
  rows_ofM (assign_col name expr)
    (fun r => v <- c r ;; Some (set_col name v r)).
Proof.
  intros H l Hl. unfold assign_col. rewrite mapM_assign, H by assumption.
  reflexivity.
Qed.

Lemma mapM_bind_mapM {A B C : Type} (g : A -> option B) (h : B -> option C)
    (l : list A) :
  (l' <- Py.mapM g l ;; Py.mapM h l') = Py.mapM (fun a => b <- g a ;; h b) l.
Proof.
  induction l as [|a l IH]; simpl; [reflexivity|].
  destruct (g a) as [b|]; simpl; [|reflexivity].
  rewrite <- IH. destruct (Py.mapM g l) as [l'|]; simpl; [reflexivity|].
  now destruct (h b).
Qed.

Lemma mapM_nonempty {A B : Type} (f : A -> option B) (l : list A)
    (l' : list B) :
  Py.mapM f l = Some l' -> l <> [] -> l' <> [].
Proof.
  intros H Hl. apply mapM_length in H. destruct l, l'; simpl in *; congruence.
Qed.

Lemma run_rows (body : list statement) (rbody : list (frow -> option frow)) :
  Forall2 rows_ofM body rbody -> rows_ofM (run body) (run_row rbody).
Proof.
  induction 1 as [|s g body rbody Hs _ IH]; intros l Hl; simpl.
  - symmetry. apply mapM_Some.
  - rewrite Hs by assumption. rewrite <- mapM_bind_mapM.
    destruct (Py.mapM g l) as [l'|] eqn:E; simpl; [|reflexivity].
    apply IH. eapply mapM_nonempty; eassumption.
Qed.

Ltac rows_expr :=
  lazymatch goal with
  | |- rows_ofM (fun l => Py.ret _) _ => eapply rowsM_pure; rows_assign
  | |- rows_ofM (fun l => Py.mapM ?c l) _ => intros ? _; reflexivity
  | |- rows_ofM (fun l => Py.mapM ?c _) _ => eapply rowsM_mapM; rows_assign
  | |- rows_ofM (fun l => Py.bind (@?M l) (fun x => @?K x l)) _ =>
      first
        [ eapply (@rowsM_bind_series _ _ _ M _ K);
          [ intros ?; unfold dcol; series; rewrite ?mapM_map; reflexivity
          | cbv beta; rows_expr ]
        | eapply rowsM_bind_const; intros ?; rows_expr ]
  end.

Lemma engineer_features_rows (np_log1p np_log : Q -> num) (fe : stats) :
  exists g, rows_ofM (fun df => engineer_features np_log1p np_log df fe) g.
Proof.
  eexists. unfold engineer_features. apply run_rows.
  repeat (apply Forall2_cons; [apply rowsM_assign_col; rows_expr |]).
  apply Forall2_nil.
Qed.

(** ** Batch and single-record prediction *)

Section Batch.

Variables (T F V : Type).
Variable g : T -> option F.
Variable sel : F -> option V.
Variable m : V -> Q.

Lemma scored_cons (t : T) (l : list T) :
  scored g sel m (t :: l)
  = (x <- scored g sel m [t] ;; y <- scored g sel m l ;;
     Py.ret (fst x ++ fst y, snd x ++ snd y)).
Proof.
  unfold scored. simpl.
  destruct (g t) as [f|]; simpl; [|reflexivity].
  destruct (Py.mapM g l) as [fs|]; simpl.
  - destruct (sel f) as [v|]; simpl; [|reflexivity].
    now destruct (Py.mapM sel fs).
  - now destruct (sel f).
Qed.

Lemma scored_concat (l : list T) :
  scored g sel m l = concat_results (map (fun t => scored g sel m [t]) l).
Proof.
  induction l as [|t l IH]; [reflexivity|].
  rewrite scored_cons. simpl. now rewrite <- IH.
Qed.

End Batch.

Lemma predict_churn_scored (s : Q -> string) (np_log1p np_log : Q -> num)
    (models : Models) (fe : stats) (model_type : string) :
  exists (g : row -> option frow) (sel : frow -> option (list num))
         (m : list num -> Q),
    forall df, df <> [] ->
      predict_churn s np_log1p np_log df models fe model_type
      = scored g sel m df.
Proof.
  destruct (engineer_features_rows np_log1p np_log fe) as [e He].
  exists (fun r => e (anomaly_row (impute_row fe (standardize_row s r)))).
  destruct (String.eqb model_type "xgboost") eqn:Emt.
  - exists (fun r => Py.mapM (getcol r) XGBOOST_FEATURE_SET), (xgboost_model models).
    intros df Hdf. unfold predict_churn, scored. rewrite Emt.
    rewrite standardize_categoricals_rows, handle_missing_values_rows,
      detect_anomalies_rows, !map_map.
    rewrite He by (destruct df; [congruence | discriminate]).
    rewrite mapM_map. reflexivity.
  - exists (fun r => Py.mapM (getcol r) LR_FEATURE_SET),
           (fun x => lr_model models (lr_scaler models x)).
    intros df Hdf. unfold predict_churn, scored. rewrite Emt.
    rewrite standardize_categoricals_rows, handle_missing_values_rows,
      detect_anomalies_rows, !map_map.
    rewrite He by (destruct df; [congruence | discriminate]).
    rewrite mapM_map. unfold select.
    destruct (Py.mapM _ df); simpl; [|reflexivity].
    destruct (Py.mapM _ l); simpl; [|reflexivity].
    now rewrite map_map.
Qed.

Lemma mapM_nth_error {A B : Type} {f : A -> option B} {l : list A}
    {l' : list B} {i : nat} {a : A} :
  Py.mapM f l = Some l' -> nth_error l i = Some a ->
  exists b, f a = Some b /\ nth_error l' i = Some b.
Proof.
  revert l' i. induction l as [|x l IH]; intros l' i H E.
  - destruct i; discriminate.
  - simpl in H. destruct (f x) as [y|] eqn:Ey; [|discriminate].
    destruct (Py.mapM f l) as [ys|]; [|discriminate].
    injection H as <-. destruct i as [|i]; simpl in *.
    + injection E as <-. eauto.
    + eauto.
Qed.

Lemma scored_nth_error {T F V : Type} {g : T -> option F}
    {sel : F -> option V} {m : V -> Q} {l : list T} {ps : list Q}
    {fs : list F} {i : nat} {t : T} :
  scored g sel m l = Some (ps, fs) -> nth_error l i = Some t ->
  exists p f,
    scored g sel m [t] = Some ([p], [f]) /\
    nth_error ps i = Some p /\ nth_error fs i = Some f.
Proof.
  unfold scored. intros H E.
  destruct (Py.mapM g l) as [fs'|] eqn:Eg; [|discriminate]. simpl in H.
  destruct (Py.mapM sel fs') as [X|] eqn:Es; [|discriminate].
  injection H as <- <-.
  destruct (mapM_nth_error Eg E) as (f & Hf & Nf).
  destruct (mapM_nth_error Es Nf) as (x & Hx & Nx).
  exists (m x), f. simpl. rewrite Hf. simpl. rewrite Hx. simpl.
  repeat split; [|assumption]. now apply map_nth_error.
Qed.

(** C9: on a frame that has a row (the only frames [main] runs it on), the
    batch run of the cleaning, feature derivation and scoring is the runs on
    each record alone, put together in order, an exception in one run being
    an exception of the batch; so when the batch run returns, it returns for
    each record the feature row and the probability of the run on that
    record alone. *)
Theorem predict_churn_batch_equals_singles (s : Q -> string)
    (np_log1p np_log : Q -> num) (df : frame) (models : Models) (fe : stats)
    (model_type : string) :
  df <> [] ->
  predict_churn s np_log1p np_log df models fe model_type
  = concat_results
      (map (fun r => predict_churn s np_log1p np_log [r] models fe model_type)
         df) /\
  forall probas features i r,
    predict_churn s np_log1p np_log df models fe model_type
      = Some (probas, features) ->
    nth_error df i = Some r ->
    exists p f,
      predict_churn s np_log1p np_log [r] models fe model_type
        = Some ([p], [f]) /\
      nth_error probas i = Some p /\ nth_error features i = Some f.
Proof.
  intros Hdf.
  destruct (predict_churn_scored s np_log1p np_log models fe model_type)
    as (g & sel & m & H).
  split.
  - rewrite H by assumption. rewrite scored_concat. f_equal.
    apply map_ext. intros r. symmetry. apply H. discriminate.
  - intros probas features i r Hb E. rewrite H in Hb by assumption.
    destruct (scored_nth_error Hb E) as (p & f & Hs & Hp & Hf).
    exists p, f. rewrite H by discriminate. auto.
Qed.

Lemma predict_churn_batch_equals_singles_witness :
  predict_churn example_str_of_num example_log example_log
    [premium_row; scenario_row; no_tenure_row] example_models example_stats
    "xgboost"
  = concat_results
      (map (fun r =>
              predict_churn example_str_of_num example_log example_log [r]
                example_models example_stats "xgboost")
         [premium_row; scenario_row; no_tenure_row]).
Proof.
  apply (@predict_churn_batch_equals_singles example_str_of_num example_log
           example_log [premium_row; scenario_row; no_tenure_row]
           example_models example_stats "xgboost").
  discriminate.
Defined.

(** An exception in the run of one record is an exception of the batch:
    under statistics that lack the Premium segment, a Premium record with no
    charges makes the batch raise, though the scenario record alone is
    scored. *)
Lemma batch_raises_with_one_record :
  predict_churn example_str_of_num example_log example_log
    [scenario_row; base free_premium_row] example_models stats_without_premium
    "xgboost" = None /\
  predict_churn example_str_of_num example_log example_log
    [base free_premium_row] example_models stats_without_premium "xgboost"
    = None /\
  exists fs,
    predict_churn example_str_of_num example_log example_log
      [scenario_row] example_models stats_without_premium "xgboost"
    = Some ([0.4], fs).
Proof.
  split; [reflexivity|]. split; [reflexivity|].
  eexists. vm_compute. reflexivity.
Qed.

(** ** The imputer *)

Lemma nth_error_rows {T R : Type} {F : list T -> list R} {g : T -> R}
    {l : list T} {i : nat} {t : T} :
  rows_of F g -> nth_error l i = Some t -> nth_error (F l) i = Some (g t).
Proof. intros H E. rewrite H. now apply map_nth_error. Qed.

(** C1, as the code has it: a missing monthly_charges is filled with the
    fitted median charges of the Standard segment, whatever the service_type
    of the record, and with 5000 only when the fitted statistics have no
    median charges for Standard; a missing data_usage_gb is filled with the
    median usage of the Standard segment, and with 70 only when there is
    none. *)
Theorem missing_charges_and_usage_get_standard_median (df : frame)
    (fe_stats : stats) (i : nat) (r : row) :
  nth_error df i = Some r ->
  exists r',
    nth_error (handle_missing_values df fe_stats) i = Some r' /\
    (monthly_charges r = None ->
     monthly_charges r' =
       Some (match Py.lookup
                     (stats_get (service_type_median_charges fe_stats) [])
                     "Standard" with
             | Some median => median
             | None => 5000
             end)) /\
    (data_usage_gb r = None ->
     data_usage_gb r' =
       Some (match Py.lookup
                     (stats_get (service_type_median_usage fe_stats) [])
                     "Standard" with
             | Some median => median
             | None => 70
             end)).
Proof.
  intros E. exists (impute_row fe_stats r). split.
  - apply (nth_error_rows (handle_missing_values_rows fe_stats) E).
  - destruct r; simpl. split; intros ->; reflexivity.
Qed.

Lemma missing_charges_and_usage_get_standard_median_witness :
  exists r',
    nth_error (handle_missing_values [premium_row] example_stats) 0 = Some r' /\
    monthly_charges r' = Some 4500 /\ data_usage_gb r' = Some 60.
Proof.
  destruct (@missing_charges_and_usage_get_standard_median
              [premium_row] example_stats 0 premium_row eq_refl)
    as (r' & E & Hc & Hu).
  exists r'. split; [exact E|].
  split; [exact (Hc eq_refl) | exact (Hu eq_refl)].
Defined.

(** C1, as the specification words it, fails: a Premium record with missing
    charges and usage, under fitted statistics whose Premium medians are
    8000 and 150, is filled with the Standard medians 4500 and 60. *)
Lemma imputer_ignores_the_segment_of_the_record :
  service_type premium_row = Str "Premium" /\
  monthly_charges premium_row = None /\
  data_usage_gb premium_row = None /\
  Py.lookup (stats_get (service_type_median_charges example_stats) [])
    "Premium" = Some 8000 /\
  Py.lookup (stats_get (service_type_median_usage example_stats) [])
    "Premium" = Some 150 /\
  map monthly_charges
    (handle_missing_values
       (standardize_categoricals example_str_of_num [premium_row])
       example_stats) = [Some 4500] /\
  map data_usage_gb
    (handle_missing_values
       (standardize_categoricals example_str_of_num [premium_row])
       example_stats) = [Some 60] /\
  ~ 4500 == 8000 /\ ~ 60 == 150.
Proof.
  repeat split; try reflexivity; intros H; discriminate H.
Qed.

(** What the imputer does fill: after it, monthly_charges, data_usage_gb,
    tenure_months, num_services, support_calls, late_payment_count and
    referral_count are present, and total_charges is present when it or
    tenure_months was. *)
Lemma impute_row_filled (fe_stats : stats) (r : row) :
  let r' := impute_row fe_stats r in
  monthly_charges r' <> None /\ data_usage_gb r' <> None /\
  tenure_months r' <> None /\ num_services r' <> None /\
  support_calls r' <> None /\ late_payment_count r' <> None /\
  referral_count r' <> None /\
  (total_charges r' = None <-> total_charges r = None /\ tenure_months r = None).
Proof.
  destruct r as [cid [q1|] ct st [q2|] [q3|] pm loc [q4|] [q5|] [q6|] ap [q7|] [q8|]];
    simpl; unfold Py.clip_lower;
    repeat match goal with
           | |- context [Py.Qlt_bool ?a ?b] => destruct (Py.Qlt_bool a b)
           end;
    repeat split; try discriminate; try tauto; intros; try discriminate;
    repeat match goal with H : _ /\ _ |- _ => destruct H end;
    try discriminate; try reflexivity.
Qed.

Lemma handle_missing_values_filled (df : frame) (fe_stats : stats) :
  Forall2
    (fun r r' =>
       monthly_charges r' <> None /\ data_usage_gb r' <> None /\
       tenure_months r' <> None /\ num_services r' <> None /\
       support_calls r' <> None /\ late_payment_count r' <> None /\
       referral_count r' <> None /\
       (total_charges r' = None <->
        total_charges r = None /\ tenure_months r = None))
    df (handle_missing_values df fe_stats).
Proof.
  rewrite handle_missing_values_rows. apply Forall2_map_r.
  intros r. apply (impute_row_filled fe_stats r).
Qed.

(** C5, where the code departs from the specification: a record whose
    tenure_months and total_charges are both missing leaves the normalizer
    and the imputer with total_charges still missing. *)
Theorem total_charges_stays_missing_without_tenure (str_of_num : Q -> string)
    (df : frame) (fe_stats : stats) (i : nat) (r : row) :
  nth_error df i = Some r ->
  tenure_months r = None ->
  total_charges r = None ->
  exists r',
    nth_error
      (handle_missing_values (standardize_categoricals str_of_num df) fe_stats)
      i = Some r' /\
    total_charges r' = None.
Proof.
  intros E Ht Hc.
  exists (impute_row fe_stats (standardize_row str_of_num r)). split.
  - apply (nth_error_rows (handle_missing_values_rows fe_stats)).
    apply map_nth_error with (f := standardize_row str_of_num) in E.
    now rewrite standardize_categoricals_rows.
  - apply impute_row_filled. destruct r; simpl in *. auto.
Qed.

Lemma total_charges_stays_missing_without_tenure_witness :
  exists r',
    nth_error
      (handle_missing_values
         (standardize_categoricals example_str_of_num [no_tenure_row])
         example_stats) 0 = Some r' /\
    total_charges r' = None.
Proof.
  exact (total_charges_stays_missing_without_tenure example_str_of_num
           [no_tenure_row] example_stats 0 eq_refl eq_refl eq_refl).
Defined.

(** C7, where the code departs from the specification: for a record whose
    tenure_months and total_charges are both missing, the first pass of the
    imputer leaves total_charges missing and sets tenure_months to 0, and a
    second pass then fills total_charges; the output of the imputer is not a
    fixed point. *)
Theorem imputer_second_pass_changes_total_charges (df : frame)
    (fe_stats : stats) (i : nat) (r : row) :
  nth_error df i = Some r ->
  tenure_months r = None ->
  total_charges r = None ->
  (exists r1 r2,
     nth_error (handle_missing_values df fe_stats) i = Some r1 /\
     nth_error
       (handle_missing_values (handle_missing_values df fe_stats) fe_stats) i
       = Some r2 /\
     total_charges r1 = None /\
     total_charges r2 = Py.mul (monthly_charges r1) (Some 1) /\
     total_charges r2 <> None) /\
  handle_missing_values (handle_missing_values df fe_stats) fe_stats
    <> handle_missing_values df fe_stats.
Proof.
  intros E Ht Hc.
  assert (E1 := nth_error_rows (handle_missing_values_rows fe_stats) E).
  assert (E2 := nth_error_rows (handle_missing_values_rows fe_stats) E1).
  cbv beta in E1, E2.
  assert (H1 : total_charges (impute_row fe_stats r) = None).
  { apply impute_row_filled. auto. }
  assert (H2 : total_charges (impute_row fe_stats (impute_row fe_stats r))
               = Py.mul (monthly_charges (impute_row fe_stats r)) (Some 1)).
  { destruct r as [cid t ct st [m|] c pm loc [q4|] [q5|] [q6|] ap [q7|] [q8|]];
      simpl in *; subst; reflexivity. }
  assert (H3 : total_charges (impute_row fe_stats (impute_row fe_stats r))
               <> None).
  { rewrite H2.
    destruct (impute_row_filled fe_stats r) as [Hm _].
    destruct (monthly_charges (impute_row fe_stats r)); [discriminate|].
    now elim Hm. }
  split.
  - exists (impute_row fe_stats r), (impute_row fe_stats (impute_row fe_stats r)).
    auto.
  - intros Heq. rewrite Heq in E2.
    assert (Hr : impute_row fe_stats r
                 = impute_row fe_stats (impute_row fe_stats r)) by congruence.
    rewrite <- Hr in H3. contradiction.
Qed.

Lemma imputer_second_pass_changes_total_charges_witness :
  handle_missing_values (handle_missing_values [no_tenure_row] example_stats)
    example_stats
  <> handle_missing_values [no_tenure_row] example_stats.
Proof.
  exact (proj2 (imputer_second_pass_changes_total_charges [no_tenure_row]
                  example_stats 0 eq_refl eq_refl eq_refl)).
Defined.

(** Apart from that case the imputer is idempotent: when no record of the
    frame has both tenure_months and total_charges missing, a second pass
    changes nothing. *)
Lemma clip_lower_idempotent (c : Q) (x : num) :
  Py.clip_lower c (Py.clip_lower c x) = Py.clip_lower c x.
Proof.
  destruct x as [q|]; simpl; [|reflexivity].
  destruct (Py.Qlt_bool q c) eqn:E; simpl; [|now rewrite E].
  destruct (Py.Qlt_bool c c) eqn:E'; [|reflexivity].
  apply Qlt_bool_iff in E'. now apply Qlt_irrefl in E'.
Qed.

Lemma fillna_clip_lower (c : Q) (v : num) (x : num) :
  Py.fillna v (Py.clip_lower c (Py.fillna (Some 0) x))
  = Py.clip_lower c (Py.fillna (Some 0) x).
Proof.
  destruct x as [q|]; simpl.
  - now destruct (Py.Qlt_bool q c).
  - now destruct (Py.Qlt_bool 0 c).
Qed.

Lemma impute_row_idempotent (fe_stats : stats) (r : row) :
  tenure_months r <> None \/ total_charges r <> None ->
  impute_row fe_stats (impute_row fe_stats r) = impute_row fe_stats r.
Proof.
  intros H. destruct r as [cid t ct st m c pm loc n u sc ap lp rc].
  simpl in H.
  cbv -[Py.fillna Py.clip_lower Py.mul charges_fill usage_fill].
  rewrite !fillna_clip_lower, !clip_lower_idempotent.
  f_equal; try (match goal with |- Py.fillna _ (Py.fillna _ ?x) = _ =>
                  now destruct x end).
  destruct c as [c|]; [reflexivity|].
  destruct t as [t|]; [|destruct H as [H|H]; now elim H].
  destruct m as [m|]; simpl; now destruct (Py.Qlt_bool t 1).
Qed.

Lemma handle_missing_values_idempotent (df : frame) (fe_stats : stats) :
  Forall (fun r => tenure_months r <> None \/ total_charges r <> None) df ->
  handle_missing_values (handle_missing_values df fe_stats) fe_stats
  = handle_missing_values df fe_stats.
Proof.
  intros H. rewrite !handle_missing_values_rows, map_map.
  apply map_ext_in. intros r Hr. apply impute_row_idempotent.
  rewrite Forall_forall in H. auto.
Qed.

(** ** The categorical normalizer *)

Lemma lookup_In {V : Type} (d : Py.dict V) (k : string) (v : V) :
  Py.lookup d k = Some v -> In v (Py.values d).
Proof.
  induction d as [|[k' v'] d IH]; simpl; [discriminate|].
  destruct (String.eqb k' k); [intros [= ->]; now left | auto].
Qed.

Lemma vlookup_In {V : Type} (d : Py.vdict V) (k : value) (v : V) :
  Py.vlookup d k = Some v -> In v (map snd d).
Proof.
  induction d as [|[k' v'] d IH]; simpl; [discriminate|].
  destruct (Py.value_eqb k' k); [intros [= ->]; now left | auto].
Qed.

Lemma in_strs_canonical (v : value) (enum : list string) :
  Py.in_strs v enum = true -> canonical enum v.
Proof.
  unfold Py.in_strs. rewrite existsb_exists. intros (s & Hs & E).
  destruct v as [t| |]; simpl in E; try discriminate.
  apply String.eqb_eq in E. subst. now exists s.
Qed.

(** Reading a field of a row built by the setters. *)
Ltac row_fields :=
  cbv [ set_tenure_months set_contract_type set_service_type
        set_monthly_charges set_total_charges set_payment_method
        set_location_type set_num_services set_data_usage_gb
        set_support_calls set_autopay_enabled set_late_payment_count
        set_referral_count
        customer_id tenure_months contract_type service_type monthly_charges
        total_charges payment_method location_type num_services data_usage_gb
        support_calls autopay_enabled late_payment_count referral_count ].

Section Normalizer.

Variable str_of_num : Q -> string.

Lemma norm_contract_type_canonical (x : value) :
  canonical contract_types (norm_contract_type str_of_num x).
Proof.
  unfold norm_contract_type, Py.get.
  destruct (Py.lookup _ _) as [v|] eqn:E.
  - exists v. split; [reflexivity|]. apply lookup_In in E.
    simpl in E. unfold contract_types. simpl. intuition (subst; auto).
  - exists "Month-to-Month". split; [reflexivity | now left].
Qed.

Lemma norm_payment_method_canonical (x : value) :
  canonical payment_methods (norm_payment_method str_of_num x).
Proof.
  unfold norm_payment_method, Py.get.
  destruct (Py.lookup _ _) as [v|] eqn:E.
  - exists v. split; [reflexivity|]. apply lookup_In in E.
    simpl in E. unfold payment_methods. simpl. intuition (subst; auto).
  - exists "M-Pesa". split; [reflexivity | now left].
Qed.

Lemma norm_autopay_enabled_canonical (x : value) :
  canonical autopay_values (norm_autopay_enabled str_of_num x).
Proof.
  unfold norm_autopay_enabled, Py.vget.
  destruct (Py.vlookup _ _) as [v|] eqn:E.
  - exists v. split; [reflexivity|]. apply vlookup_In in E.
    simpl in E. unfold autopay_values. simpl. intuition (subst; auto).
  - exists "No". split; [reflexivity | simpl; auto].
Qed.

Lemma norm_service_type_canonical (x : value) :
  canonical valid_services (norm_service_type x).
Proof.
  unfold norm_service_type.
  destruct (Py.in_strs x valid_services) eqn:E.
  - now apply in_strs_canonical.
  - exists "Standard". split; [reflexivity | simpl; auto].
Qed.

Lemma norm_location_type_canonical (x : value) :
  canonical valid_locations (norm_location_type x).
Proof.
  unfold norm_location_type.
  destruct (Py.in_strs x valid_locations) eqn:E.
  - now apply in_strs_canonical.
  - exists "Urban". split; [reflexivity | simpl; auto].
Qed.

(** A canonical value is a key of its own table, mapped to itself. *)
Ltac by_cases H :=
  destruct H as (s & -> & H); simpl in H;
  repeat (destruct H as [<- | H]; [reflexivity|]); contradiction.

Lemma norm_contract_type_fixes (x : value) :
  canonical contract_types x -> norm_contract_type str_of_num x = x.
Proof. intros H. by_cases H. Qed.

Lemma norm_payment_method_fixes (x : value) :
  canonical payment_methods x -> norm_payment_method str_of_num x = x.
Proof. intros H. by_cases H. Qed.

Lemma norm_autopay_enabled_fixes (x : value) :
  canonical autopay_values x -> norm_autopay_enabled str_of_num x = x.
Proof. intros H. by_cases H. Qed.

Lemma norm_service_type_fixes (x : value) :
  canonical valid_services x -> norm_service_type x = x.
Proof. intros H. by_cases H. Qed.

Lemma norm_location_type_fixes (x : value) :
  canonical valid_locations x -> norm_location_type x = x.
Proof. intros H. by_cases H. Qed.

Lemma standardize_row_canonical (r : row) :
  canonical_row (standardize_row str_of_num r).
Proof.
  destruct r. unfold canonical_row, standardize_row. row_fields.
  auto using norm_contract_type_canonical, norm_payment_method_canonical,
    norm_autopay_enabled_canonical, norm_service_type_canonical,
    norm_location_type_canonical.
Qed.

Lemma standardize_row_defaults (r : row) :
  unrecognized_to_default str_of_num r (standardize_row str_of_num r).
Proof.
  destruct r. unfold unrecognized_to_default, standardize_row. row_fields.
  unfold norm_contract_type, norm_payment_method, norm_autopay_enabled,
    norm_service_type, norm_location_type, Py.get, Py.vget.
  repeat split; intros ->; reflexivity.
Qed.

Lemma standardize_row_fixes (r : row) :
  canonical_row r -> standardize_row str_of_num r = r.
Proof.
  destruct r. unfold canonical_row, standardize_row. row_fields.
  intros (H1 & H2 & H3 & H4 & H5).
  now rewrite norm_contract_type_fixes, norm_payment_method_fixes,
    norm_autopay_enabled_fixes, norm_service_type_fixes,
    norm_location_type_fixes.
Qed.

End Normalizer.

(** C6: the normalizer always returns (no case of it raises); every row of
    its output has its five categorical fields in their canonical
    enumerations; a value outside the synonym table of its field becomes the
    default of the field; and normalizing the output again changes
    nothing. *)
Theorem standardize_categoricals_total_idempotent (str_of_num : Q -> string)
    (df : frame) :
  Forall canonical_row (standardize_categoricals str_of_num df) /\
  Forall2 (unrecognized_to_default str_of_num) df
    (standardize_categoricals str_of_num df) /\
  standardize_categoricals str_of_num (standardize_categoricals str_of_num df)
  = standardize_categoricals str_of_num df.
Proof.
  rewrite !standardize_categoricals_rows. repeat split.
  - apply Forall_forall. intros r' Hr'. apply in_map_iff in Hr'.
    destruct Hr' as (r & <- & _). apply standardize_row_canonical.
  - apply Forall2_map_r. apply standardize_row_defaults.
  - rewrite map_map. apply map_ext. intros r.
    apply standardize_row_fixes, standardize_row_canonical.
Qed.

(** The example of the specification: the unrecognized contract type
    "weird_value" becomes "Month-to-Month"; known variants are mapped, with
    the spaces around them stripped. *)
Lemma norm_contract_type_examples (str_of_num : Q -> string) :
  norm_contract_type str_of_num (Str "weird_value") = Str "Month-to-Month" /\
  norm_contract_type str_of_num (Str "  2-Year ") = Str "Two Year" /\
  norm_contract_type str_of_num NaN = Str "Month-to-Month" /\
  norm_autopay_enabled str_of_num (Num 1) = Str "Yes" /\
  norm_autopay_enabled str_of_num (Str " true") = Str "Yes" /\
  norm_service_type (Str " Basic") = Str "Standard".
Proof. repeat split. Qed.

(** ** The driver explainer *)

Lemma vlt_of_num (x : num) (c : Q) :
  Py.vlt (Py.of_num x) c = Some (Py.lt x c).
Proof. now destruct x. Qed.

Lemma vgt_of_num (x : num) (c : Q) :
  Py.vgt (Py.of_num x) c = Some (Py.gt x c).
Proof. now destruct x. Qed.

(** A customer is not both new and established. *)
Lemma new_excludes_established (x : num) :
  Py.lt x 6 = true -> Py.gt x 24 = false.
Proof.
  destruct x as [q|]; simpl; [|reflexivity].
  intros H. apply Qlt_bool_iff in H. apply Qlt_bool_false_iff. lra.
Qed.

(** The code of [get_top_drivers] on the dictionary of a row is the rule
    table of the specification, cut to its first six matches. *)
Lemma get_top_drivers_rule_table {F C : Type} (r : row) (df_features : F)
    (coef_df : C) :
  get_top_drivers (to_dict r) df_features coef_df
  = Some (firstn 6 (matched_drivers r)).
Proof.
  destruct r as [cid t ct st m c pm loc n u sc ap lp rc].
  unfold get_top_drivers, get_eq, matched_drivers, driver_rules, to_dict,
    Py.get.
  cbn [Py.lookup String.eqb Ascii.eqb Bool.eqb].
  rewrite !vlt_of_num, !vgt_of_num.
  cbn [Py.bind filter map fst snd]. row_fields.
  generalize (Py.eq_str ct "Month-to-Month"), (Py.lt t 6), (Py.gt m 6200),
    (Py.gt sc 3), (Py.gt lp 0), (Py.eq_str ap "No"), (Py.gt t 24),
    (Py.gt rc 0).
  intros [] [] [] [] [] [] [] []; reflexivity.
Qed.

(** C8, as the code has it: the driver explainer returns, for every record,
    the facts of the satisfied rules in the order of the table,
    MTM-contract, new-customer, high-value, heavy-support, late-payments,
    no-autopay, established-customer, has-referrals, cut to the first six.
    New-customer and established-customer exclude each other, so at most
    seven rules are satisfied, and the only fact that is ever dropped is the
    last one, has-referrals. *)
Theorem get_top_drivers_first_six_in_rule_order {F C : Type} (r : row)
    (df_features : F) (coef_df : C) :
  get_top_drivers (to_dict r) df_features coef_df
    = Some (firstn 6 (matched_drivers r)) /\
  map snd driver_rules
    = [ ("Month-to-Month Contract", "HIGH", "+75% churn odds");
        ("New Customer (<6 months)", "HIGH", "+25% churn odds");
        ("High-Value Customer", "MEDIUM", "+27% churn odds");
        ("High Support Usage", "MEDIUM", "+14% churn odds");
        ("Late Payments", "MEDIUM", "+16% churn odds");
        ("No Autopay", "LOW", "+8% churn odds");
        ("Established Customer", "POSITIVE", "-8% churn odds");
        ("Has Made Referrals", "POSITIVE", "-15% churn odds") ] /\
  (length (matched_drivers r) <= 7)%nat /\
  (skipn 6 (matched_drivers r) = [] \/
   skipn 6 (matched_drivers r)
     = [ ("Has Made Referrals", "POSITIVE", "-15% churn odds") ]).
Proof.
  split; [apply get_top_drivers_rule_table|].
  split; [reflexivity|].
  destruct r as [cid t ct st m c pm loc n u sc ap lp rc].
  unfold matched_drivers, driver_rules. cbn [filter map fst snd]. row_fields.
  generalize (new_excludes_established t).
  generalize (Py.eq_str ct "Month-to-Month"), (Py.lt t 6), (Py.gt m 6200),
    (Py.gt sc 3), (Py.gt lp 0), (Py.eq_str ap "No"), (Py.gt t 24),
    (Py.gt rc 0).
  intros [] [] [] [] [] [] [] [] Ht;
    try (specialize (Ht eq_refl); discriminate Ht);
    cbn [map snd length skipn]; split; try lia; auto.
Qed.

(** C8, as the specification words it, fails: a record that satisfies more
    than six rules, among them established-customer, keeps the positive
    fact "Established Customer" among the six returned. *)
Lemma established_customer_is_not_dropped :
  (length (matched_drivers seven_rules_row) > 6)%nat /\
  In ("Established Customer", "POSITIVE", "-8% churn odds")
    (matched_drivers seven_rules_row) /\
  get_top_drivers (to_dict seven_rules_row) tt tt
    = Some [ ("Month-to-Month Contract", "HIGH", "+75% churn odds");
             ("High-Value Customer", "MEDIUM", "+27% churn odds");
             ("High Support Usage", "MEDIUM", "+14% churn odds");
             ("Late Payments", "MEDIUM", "+16% churn odds");
             ("No Autopay", "LOW", "+8% churn odds");
             ("Established Customer", "POSITIVE", "-8% churn odds") ].
Proof.
  repeat split.
  - vm_compute. lia.
  - vm_compute. tauto.
Qed.

(** ** Fallback denominators in feature derivation *)

Lemma get_cell_unseen (medians : Py.dict Q) (segment : value) (default : num) :
  unseen medians segment -> get_cell medians segment default = default.
Proof.
  destruct segment as [s| |]; simpl; try reflexivity. now intros ->.
Qed.

Lemma rowsM_ext {T R : Type} (F : list T -> option (list R))
    (g g' : T -> option R) :
  rows_ofM F g -> (forall t, g t = g' t) -> rows_ofM F g'.
Proof.
  intros H E l Hl. rewrite H by assumption.
  induction l as [|a l IH]; simpl; [reflexivity|].
  rewrite E. destruct (g' a); [|reflexivity].
  destruct l as [|b l]; [reflexivity|]. rewrite IH by discriminate. reflexivity.
Qed.

Lemma engineer_features_engineer_row (np_log1p np_log : Q -> num) (fe : stats) :
  rows_ofM (fun df => engineer_features np_log1p np_log df fe)
    (engineer_row np_log1p np_log fe).
Proof.
  eapply rowsM_ext.
  - unfold engineer_features. apply run_rows.
    repeat (apply Forall2_cons; [apply rowsM_assign_col; rows_expr |]).
    apply Forall2_nil.
  - intros r. unfold engineer_row, assign_cell. reflexivity.
Qed.

Lemma eqn_of_bool_1 (b : bool) : Py.eqn (Py.of_bool b) 1 = b.
Proof. now destruct b. Qed.

Lemma eqn_of_bool_0 (b : bool) : Py.eqn (Py.of_bool b) 0 = negb b.
Proof. now destruct b. Qed.

Lemma astype_int_cut (breaks : list Q) (x : num) :
  Py.astype_int (Py.cut breaks x) = (_ <- x ;; Some (Py.cut breaks x)).
Proof. now destruct x. Qed.

Lemma anomaly_row_flag (c : row) :
  anomaly_row c
  = mkFrow c [ ("charges_anomaly_flag",
                Py.of_bool (Py.lt2 (total_charges c) (monthly_charges c))) ].
Proof.
  unfold anomaly_row.
  now destruct (Py.lt2 (total_charges c) (monthly_charges c)).
Qed.

Lemma run_row_cell (name : string) (cell : frow -> option num)
    (body : list (frow -> option frow)) (c : row) (d : Py.dict num) :
  run_row (assign_cell name cell :: body) (mkFrow c d)
  = (v <- cell (mkFrow c d) ;; run_row body (mkFrow c (Py.update d name v))).
Proof.
  cbn [run_row]. unfold assign_cell. now destruct (cell (mkFrow c d)).
Qed.

Ltac row_step :=
  rewrite run_row_cell; cbv beta;
  cbv [ base derived Py.update Py.lookup String.eqb Ascii.eqb Bool.eqb
        price_sensitivity_row usage_tier_ratio_row ];
  row_fields; rewrite ?astype_int_cut; cbv [Py.bind].

Lemma engineer_row_anomaly_row (np_log1p np_log : Q -> num) (fe : stats)
    (c : row) :
  engineer_row np_log1p np_log fe (anomaly_row c)
  = derive_record np_log1p np_log fe c.
Proof.
  rewrite anomaly_row_flag.
  unfold engineer_row, derive_record, feature_cells.
  destruct c as [cid t ct st m tc pm loc n u sc ap lp rc].
  destruct fe as [charges usage p75 p25].
  cbv [ Py.bind price_sensitivity_row usage_tier_ratio_row base
        service_type_median_charges service_type_median_usage
        monthly_charges_p75 data_usage_p25 ].
  row_fields.
  destruct t as [t|]; [|reflexivity].
  do 5 row_step.
  destruct p75 as [p75|]; [|now destruct lp].
  do 2 row_step.
  destruct charges as [charges|]; [|now destruct lp, p25].
  destruct (Py.div m (get_cell charges st m)) as [ps|];
    [|now destruct lp, p25].
  do 4 row_step.
  destruct lp as [lp|]; [|reflexivity].
  do 3 row_step.
  destruct usage as [usage|]; [|now destruct p25].
  destruct (Py.div u (get_cell usage st (Py.max u 1))) as [ut|];
    [|now destruct p25].
  do 11 row_step.
  destruct p25 as [p25|]; [|reflexivity].
  repeat row_step.
  rewrite ?eqn_of_bool_1, ?eqn_of_bool_0. reflexivity.
Qed.

Lemma mapM_ext {A B : Type} (f g : A -> option B) (l : list A) :
  (forall a, f a = g a) -> Py.mapM f l = Py.mapM g l.
Proof.
  intros E. induction l as [|a l IH]; [reflexivity|].
  cbn [Py.mapM]. now rewrite E, IH.
Qed.

Lemma mapM_raises {A B : Type} {f : A -> option B} {l : list A} {i : nat}
    {a : A} :
  nth_error l i = Some a -> f a = None -> Py.mapM f l = None.
Proof.
  revert i. induction l as [|x l IH]; intros [|i] Hi Ha; try discriminate.
  - injection Hi as ->. cbn [Py.mapM]. now rewrite Ha.
  - cbn [Py.mapM]. rewrite (IH i Hi Ha). now destruct (f x).
Qed.

(** [engineer_features] on the frame [detect_anomalies] returns, record by
    record: the feature table of each record. *)
Lemma engineer_features_table (np_log1p np_log : Q -> num) (fe : stats)
    (df : frame) :
  df <> [] ->
  engineer_features np_log1p np_log (detect_anomalies df) fe
  = Py.mapM (derive_record np_log1p np_log fe) df.
Proof.
  intros Hdf. rewrite detect_anomalies_rows.
  rewrite (engineer_features_engineer_row np_log1p np_log fe)
    by (destruct df; [contradiction | discriminate]).
  rewrite mapM_map. apply mapM_ext.
  intros r. apply engineer_row_anomaly_row.
Qed.

Lemma derive_record_Some (np_log1p np_log : Q -> num) (fe : stats) (c : row)
    (f : frow) :
  derive_record np_log1p np_log fe c = Some f ->
  exists p75 p25 ps ut,
    monthly_charges_p75 fe = Some p75 /\ data_usage_p25 fe = Some p25 /\
    price_sensitivity_row fe (mkFrow c []) = Some ps /\
    usage_tier_ratio_row fe (mkFrow c []) = Some ut /\
    f = mkFrow c (feature_cells np_log1p np_log p75 p25 ps ut c).
Proof.
  unfold derive_record. intros H.
  destruct (tenure_months c); [|discriminate].
  destruct (late_payment_count c); [|discriminate].
  destruct (monthly_charges_p75 fe) as [p75|]; [|discriminate].
  destruct (data_usage_p25 fe) as [p25|]; [|discriminate].
  destruct (price_sensitivity_row fe (mkFrow c [])) as [ps|]; [|discriminate].
  destruct (usage_tier_ratio_row fe (mkFrow c [])) as [ut|]; [|discriminate].
  cbn [Py.bind] in H. injection H as <-.
  exists p75, p25, ps, ut. repeat split; reflexivity.
Qed.

Lemma derive_record_price_None (np_log1p np_log : Q -> num) (fe : stats)
    (c : row) :
  price_sensitivity_row fe (mkFrow c []) = None ->
  derive_record np_log1p np_log fe c = None.
Proof.
  unfold derive_record. intros ->.
  destruct (tenure_months c), (late_payment_count c),
    (monthly_charges_p75 fe), (data_usage_p25 fe); reflexivity.
Qed.

(** The two ratios of a record whose segment has no fitted median. *)
Lemma price_sensitivity_unseen (fe : stats) (r : frow) (charges : Py.dict Q)
    (m : Q) :
  service_type_median_charges fe = Some charges ->
  unseen charges (service_type (base r)) ->
  monthly_charges (base r) = Some m ->
  (0 < m -> exists v, price_sensitivity_row fe r = Some (Some v) /\ v == 1) /\
  (m == 0 -> price_sensitivity_row fe r = None).
Proof.
  unfold price_sensitivity_row. intros Hc Uc Hm. rewrite Hc. simpl.
  rewrite get_cell_unseen by assumption. rewrite Hm. unfold Py.div. split.
  - intros Hpos. destruct (Qeq_bool m 0) eqn:E.
    + apply Qeq_bool_eq in E. rewrite E in Hpos.
      now apply Qlt_irrefl in Hpos.
    + exists (m / m). split; [reflexivity|].
      apply Qeq_bool_neq in E. field. exact E.
  - intros Hz. apply Qeq_eq_bool in Hz. now rewrite Hz.
Qed.

Lemma usage_tier_ratio_unseen (fe : stats) (r : frow) (usage : Py.dict Q) :
  service_type_median_usage fe = Some usage ->
  unseen usage (service_type (base r)) ->
  (exists v, usage_tier_ratio_row fe r = Some v) /\
  (forall u, data_usage_gb (base r) = Some u ->
     exists v, usage_tier_ratio_row fe r = Some (Some v) /\
       (1 <= u -> v == 1) /\ (u < 1 -> v == u)).
Proof.
  unfold usage_tier_ratio_row. intros Hu Uu. rewrite Hu. simpl.
  rewrite get_cell_unseen by assumption. unfold Py.div.
  assert (K : forall u, data_usage_gb (base r) = Some u ->
            exists v,
              match Py.max (Some u) 1 with
              | Some d =>
                  if Qeq_bool d 0 then None
                  else Some (Some (u / d))
              | None => Some None
              end = Some (Some v) /\
              (1 <= u -> v == 1) /\ (u < 1 -> v == u)).
  { intros u _. unfold Py.max. destruct (Py.Qlt_bool u 1) eqn:L.
    - simpl. exists (u / 1). split; [reflexivity|]. split.
      + intros H. apply Qlt_bool_iff in L. lra.
      + intros _. field.
    - apply Qlt_bool_false_iff in L.
      destruct (Qeq_bool u 0) eqn:E.
      + apply Qeq_bool_eq in E. lra.
      + exists (u / u). split; [reflexivity|]. split.
        * intros _. apply Qeq_bool_neq in E. field. exact E.
        * intros H. lra. }
  split.
  - destruct (data_usage_gb (base r)) as [u|] eqn:Eu; [|simpl; eauto].
    destruct (K u eq_refl) as (v & Hv & _). exists (Some v). exact Hv.
  - intros u Eu. rewrite Eu. exact (K u Eu).
Qed.

(** C10: for a record whose service_type is absent from the fitted median
    charges, the denominator of price_sensitivity is the record's own
    monthly_charges: price_sensitivity is exactly 1 when monthly_charges is
    positive, and the division of 0 by 0 raises when monthly_charges is 0.
    For a record whose service_type is absent from the fitted median usage,
    the denominator of usage_tier_ratio is max(data_usage_gb, 1), which is
    never 0: usage_tier_ratio returns a value for every data_usage_gb, which
    is exactly 1 when the usage is at least 1 and the usage itself when it
    is below 1 (0 when the usage is 0).  This holds for the two functions
    applied to each row, and for the columns price_sensitivity and
    usage_tier_ratio that [engineer_features] stores for the record at each
    place of the frame [detect_anomalies] returns; there a record with
    monthly_charges 0 and an unseen service_type makes [engineer_features]
    raise. *)
Theorem price_sensitivity_fallback_is_own_charges
    (np_log1p np_log : Q -> num) (fe : stats) :
  (forall r : frow,
     (forall charges m,
        service_type_median_charges fe = Some charges ->
        unseen charges (service_type (base r)) ->
        monthly_charges (base r) = Some m ->
        (0 < m ->
         exists v, price_sensitivity_row fe r = Some (Some v) /\ v == 1) /\
        (m == 0 -> price_sensitivity_row fe r = None)) /\
     (forall usage,
        service_type_median_usage fe = Some usage ->
        unseen usage (service_type (base r)) ->
        (exists v, usage_tier_ratio_row fe r = Some v) /\
        (forall u, data_usage_gb (base r) = Some u ->
           exists v, usage_tier_ratio_row fe r = Some (Some v) /\
             (1 <= u -> v == 1) /\ (u < 1 -> v == u) /\
             (u == 0 -> v == 0)))) /\
  (forall (df : frame) (i : nat) (c : row),
     nth_error df i = Some c ->
     (forall charges m,
        service_type_median_charges fe = Some charges ->
        unseen charges (service_type c) ->
        monthly_charges c = Some m ->
        (0 < m ->
         forall df_features,
           engineer_features np_log1p np_log (detect_anomalies df) fe
             = Some df_features ->
           exists f v,
             nth_error df_features i = Some f /\
             getcol f "price_sensitivity" = Some (Some v) /\ v == 1) /\
        (m == 0 ->
         engineer_features np_log1p np_log (detect_anomalies df) fe = None)) /\
     (forall usage u,
        service_type_median_usage fe = Some usage ->
        unseen usage (service_type c) ->
        data_usage_gb c = Some u ->
        forall df_features,
          engineer_features np_log1p np_log (detect_anomalies df) fe
            = Some df_features ->
          exists f v,
            nth_error df_features i = Some f /\
            getcol f "usage_tier_ratio" = Some (Some v) /\
            (1 <= u -> v == 1) /\ (u < 1 -> v == u))).
Proof.
  split.
  - intros r. split.
    + intros charges m Hc Uc Hm. now apply price_sensitivity_unseen with charges.
    + intros usage Hu Uu.
      destruct (usage_tier_ratio_unseen fe r Hu Uu) as [H1 H2].
      split; [exact H1|]. intros u Eu.
      destruct (H2 u Eu) as (v & Hv & Hge & Hlt).
      exists v. repeat split; try assumption.
      intros Hz. rewrite Hlt by lra. exact Hz.
  - intros df i c Hi.
    assert (Hdf : df <> []) by (intros ->; now destruct i).
    rewrite (engineer_features_table np_log1p np_log fe Hdf).
    split.
    + intros charges m Hc Uc Hm.
      destruct (price_sensitivity_unseen fe (mkFrow c []) Hc Uc Hm)
        as [Hpos Hzero].
      split.
      * intros Hm0 df_features E.
        destruct (mapM_nth_error E Hi) as (f & Hf & Hfi).
        apply derive_record_Some in Hf.
        destruct Hf as (p75 & p25 & ps & ut & _ & _ & Hps & _ & ->).
        destruct (Hpos Hm0) as (v & Hv & Hv1).
        exists (mkFrow c (feature_cells np_log1p np_log p75 p25 ps ut c)), v.
        split; [exact Hfi|]. split; [|exact Hv1].
        rewrite Hps in Hv. injection Hv as ->. reflexivity.
      * intros Hm0. apply (mapM_raises Hi).
        apply derive_record_price_None. now apply Hzero.
    + intros usage u Hu Uu Eu df_features E.
      destruct (mapM_nth_error E Hi) as (f & Hf & Hfi).
      apply derive_record_Some in Hf.
      destruct Hf as (p75 & p25 & ps & ut & _ & _ & _ & Hut & ->).
      destruct (usage_tier_ratio_unseen fe (mkFrow c []) Hu Uu) as [_ H2].
      destruct (H2 u Eu) as (v & Hv & Hge & Hlt).
      exists (mkFrow c (feature_cells np_log1p np_log p75 p25 ps ut c)), v.
      split; [exact Hfi|]. split; [|split; assumption].
      rewrite Hut in Hv. injection Hv as ->. reflexivity.
Qed.

Lemma price_sensitivity_fallback_is_own_charges_witness :
  (exists v,
     price_sensitivity_row stats_without_premium paying_premium_row
       = Some (Some v) /\ v == 1) /\
  price_sensitivity_row stats_without_premium free_premium_row = None /\
  (exists v,
     usage_tier_ratio_row stats_without_premium paying_premium_row
       = Some (Some v) /\ (1 <= 120 -> v == 1) /\ (120 < 1 -> v == 120) /\
     (120 == 0 -> v == 0)) /\
  (exists f v,
     nth_error
       [ mkFrow (base paying_premium_row)
           (feature_cells example_log example_log 6200 25
              (Some (9000 / 9000)) (Some (120 / 120))
              (base paying_premium_row)) ] 0 = Some f /\
     getcol f "price_sensitivity" = Some (Some v) /\ v == 1) /\
  engineer_features example_log example_log
    (detect_anomalies [base paying_premium_row; base free_premium_row])
    stats_without_premium = None /\
  (exists f v,
     nth_error
       [ mkFrow (base paying_premium_row)
           (feature_cells example_log example_log 6200 25
              (Some (9000 / 9000)) (Some (120 / 120))
              (base paying_premium_row)) ] 0 = Some f /\
     getcol f "usage_tier_ratio" = Some (Some v) /\
     (1 <= 120 -> v == 1) /\ (120 < 1 -> v == 120)).
Proof.
  pose proof (price_sensitivity_fallback_is_own_charges example_log
                example_log stats_without_premium) as [Hrow Hcol].
  split; [|split; [|split; [|split; [|split]]]].
  - apply (proj1 (proj1 (Hrow paying_premium_row) _ 9000
                    eq_refl eq_refl eq_refl)).
    reflexivity.
  - apply (proj2 (proj1 (Hrow free_premium_row) _ 0
                    eq_refl eq_refl eq_refl)).
    reflexivity.
  - apply (proj2 (proj2 (Hrow paying_premium_row) _ eq_refl eq_refl)
             120 eq_refl).
  - apply (proj1 (proj1 (Hcol [base paying_premium_row] 0%nat
                           (base paying_premium_row) eq_refl)
                    _ 9000 eq_refl eq_refl eq_refl)).
    + reflexivity.
    + reflexivity.
  - apply (proj2 (proj1 (Hcol [base paying_premium_row; base free_premium_row]
                           1%nat (base free_premium_row) eq_refl)
                    _ 0 eq_refl eq_refl eq_refl)).
    reflexivity.
  - apply (proj2 (Hcol [base paying_premium_row] 0%nat
                    (base paying_premium_row) eq_refl)
             _ 120 eq_refl eq_refl eq_refl).
    reflexivity.
Defined.

(** The two cases on records: with charges 9000 the ratio is 9000/9000, with
    no charges the division raises, while the usage ratio of the same record
    is 0/1. *)
Lemma price_sensitivity_fallback_examples :
  price_sensitivity_row stats_without_premium paying_premium_row
    = Some (Some (9000 / 9000)) /\
  price_sensitivity_row stats_without_premium free_premium_row = None /\
  usage_tier_ratio_row stats_without_premium free_premium_row
    = Some (Some (0 / 1)).
Proof. repeat split. Qed.

(** ** The end-to-end scenario *)

Lemma scenario_predict_churn (str_of_num : Q -> string)
    (np_log1p np_log : Q -> num) (models : Models) (model_key : string) :
  exists p fs,
    predict_churn str_of_num np_log1p np_log [scenario_row] models
      example_stats model_key = Some ([p], fs) /\
    map (fun f => getcol f "is_new_customer") fs = [Some (Some 1)] /\
    map (fun f => getcol f "contract_risk") fs = [Some (Some 2)].
Proof.
  unfold predict_churn.
  destruct (String.eqb model_key "xgboost"); do 2 eexists;
    (split; [vm_compute; reflexivity | split; reflexivity]).
Qed.

Lemma scenario_recommendations (p : Q) :
  get_recommendations (to_dict scenario_row) p
  = Some ((if Py.Qlt_bool HIGH_RISK_THRESHOLD p
           then [ mkRec "URGENT" "Schedule immediate retention call"
                    "Direct intervention for high-risk customer" ]
           else [])
          ++ [ mkRec "HIGH" "Assign dedicated onboarding specialist"
                 "New customers have +25% churn risk";
               mkRec "MEDIUM" "Enable autopay with KES 500 credit incentive"
                 "Reduces churn odds by ~8%" ]).
Proof.
  unfold get_recommendations.
  destruct (Py.Qlt_bool HIGH_RISK_THRESHOLD p); reflexivity.
Qed.

(** C4, where the code departs from the specification: for the scenario record
    the derived features have is_new_customer = 1 and contract_risk = 2, the
    recommendations include the onboarding-specialist action and the drivers
    include "New Customer (<6 months)"; but [main] hands the rule tables the
    row as it was read, whose contract_type is still "Month to Month", so the
    contract-discount action and the driver "Month-to-Month Contract" are
    not produced. *)
Theorem scenario_rules_see_the_raw_contract_type (str_of_num : Q -> string)
    (np_log1p np_log : Q -> num) (models : Models) (model_key : string) :
  exists a,
    main_single_customer str_of_num np_log1p np_log scenario_row models
      example_stats tt model_key = Some a /\
    map (fun f => getcol f "is_new_customer") (features a) = [Some (Some 1)] /\
    map (fun f => getcol f "contract_risk") (features a) = [Some (Some 2)] /\
    In (mkRec "HIGH" "Assign dedicated onboarding specialist"
          "New customers have +25% churn risk") (recommendations a) /\
    ~ In (mkRec "HIGH" "Offer 12-month contract with 15% discount"
            "Reduces churn odds by ~75%") (recommendations a) /\
    drivers a = [ ("New Customer (<6 months)", "HIGH", "+25% churn odds");
                  ("No Autopay", "LOW", "+8% churn odds") ] /\
    ~ In ("Month-to-Month Contract", "HIGH", "+75% churn odds") (drivers a).
Proof.
  destruct (scenario_predict_churn str_of_num np_log1p np_log models model_key)
    as (p & fs & HP & H1 & H2).
  unfold main_single_customer. rewrite HP.
  cbn [Py.bind fst snd nth_error].
  rewrite get_top_drivers_rule_table, scenario_recommendations.
  eexists. split; [reflexivity|].
  cbn [features recommendations drivers].
  split; [exact H1|]. split; [exact H2|].
  destruct (Py.Qlt_bool HIGH_RISK_THRESHOLD p);
    (split; [simpl; auto|]);
    (split; [intros H; simpl in H;
             repeat (destruct H as [H|H]; try discriminate H); exact H|]);
    (split; [reflexivity|]);
    intros H; vm_compute in H;
    repeat (destruct H as [H|H]; try discriminate H); exact H.
Qed.

(** Had the rule tables been given the cleaned record, as the feature
    derivation is, both would fire: on the normalized scenario record the
    drivers start with "Month-to-Month Contract" and the recommendations
    include the contract discount. *)
Lemma scenario_rules_on_the_cleaned_record (str_of_num : Q -> string)
    (p : Q) :
  let cleaned := standardize_row str_of_num scenario_row in
  contract_type cleaned = Str "Month-to-Month" /\
  get_top_drivers (to_dict cleaned) tt tt
    = Some [ ("Month-to-Month Contract", "HIGH", "+75% churn odds");
             ("New Customer (<6 months)", "HIGH", "+25% churn odds");
             ("No Autopay", "LOW", "+8% churn odds") ] /\
  exists recs,
    get_recommendations (to_dict cleaned) p = Some recs /\
    In (mkRec "HIGH" "Offer 12-month contract with 15% discount"
          "Reduces churn odds by ~75%") recs.
Proof.
  repeat split.
  unfold get_recommendations, HIGH_RISK_THRESHOLD.
  destruct (Py.Qlt_bool 0.50 p); eexists; (split; [reflexivity|]);
    simpl; auto.
Qed.
